(** * backend/app.py: the conversation service

    A shallow embedding of the Flask application in [backend/app.py]:
    the request-scoped SQLite connection ([get_db], [close_db]), the
    schema creation ([init_db]) and the two routes ([generate],
    [history]), followed by the properties of the service that are
    proved about them.

    Python [str] values are sequences of Unicode code points and are
    modelled as [list N].  Integers are unbounded in Python and are
    modelled as [Z]; the places where SQLite narrows them to 64 bits are
    written out. *)

From Stdlib Require Import ZArith NArith Lia Ascii String.
From stdpp Require Import base option list gmap sorting.

Local Open Scope Z_scope.

(** ** Python strings *)

Abbreviation pystr := (list N).

(** An ASCII literal as a Python string. *)
Definition py (s : string) : pystr :=
  N_of_ascii <$> list_ascii_of_string s.

Module PyStr.

(** [str.isspace] on one code point: the characters that [str.strip]
    with no argument removes. *)
Definition isspace (c : N) : bool :=
  ((0x09 <=? c) && (c <=? 0x0D) || (0x1C <=? c) && (c <=? 0x20)
   || (c =? 0x85) || (c =? 0xA0) || (c =? 0x1680)
   || (0x2000 <=? c) && (c <=? 0x200A)
   || (c =? 0x2028) || (c =? 0x2029) || (c =? 0x202F)
   || (c =? 0x205F) || (c =? 0x3000))%N.

Section Strip.
Variable ws : N -> bool.

Fixpoint lstrip_with (s : pystr) : pystr :=
  match s with
  | c :: s' => if ws c then lstrip_with s' else s
  | [] => []
  end.

Definition rstrip_with (s : pystr) : pystr :=
  reverse (lstrip_with (reverse s)).

Definition strip_with (s : pystr) : pystr :=
  rstrip_with (lstrip_with s).
End Strip.

(** [s.strip()] *)
Definition strip : pystr -> pystr := strip_with isspace.

(** The start of every run of ten decimal digits of the Unicode
    character database (class Nd); the digit at [start + i] has
    value [i]. *)
Definition decimal_runs : list N :=
  [0x30; 0x660; 0x6f0; 0x7c0; 0x966; 0x9e6; 0xa66; 0xae6; 0xb66; 0xbe6;
   0xc66; 0xce6; 0xd66; 0xde6; 0xe50; 0xed0; 0xf20; 0x1040; 0x1090;
   0x17e0; 0x1810; 0x1946; 0x19d0; 0x1a80; 0x1a90; 0x1b50; 0x1bb0;
   0x1c40; 0x1c50; 0xa620; 0xa8d0; 0xa900; 0xa9d0; 0xa9f0; 0xaa50;
   0xabf0; 0xff10; 0x104a0; 0x10d30; 0x11066; 0x110f0; 0x11136;
   0x111d0; 0x112f0; 0x11450; 0x114d0; 0x11650; 0x116c0; 0x11730;
   0x118e0; 0x11950; 0x11c50; 0x11d50; 0x11da0; 0x16a60; 0x16ac0;
   0x16b50; 0x1d7ce; 0x1d7d8; 0x1d7e2; 0x1d7ec; 0x1d7f6; 0x1e140;
   0x1e2f0; 0x1e950; 0x1fbf0]%N.

Fixpoint decimal_in (runs : list N) (c : N) : option N :=
  match runs with
  | [] => None
  | r :: runs' =>
      if ((r <=? c) && (c <? r + 10))%N then Some (c - r)%N
      else decimal_in runs' c
  end.

(** The decimal value of a code point, if it is a decimal digit. *)
Definition to_decimal : N -> option N := decimal_in decimal_runs.

(** What [int] does to a [str] before it reads it: characters below
    127 stay, other white space becomes a blank, other decimal digits
    become ASCII digits and everything else a question mark. *)
Definition to_ascii (c : N) : N :=
  if (c <? 127)%N then c
  else if isspace c then 0x20%N
  else match to_decimal c with
       | Some d => (0x30 + d)%N
       | None => 0x3F%N
       end.

(** White space of the ASCII reader: tab to carriage return and the
    blank. *)
Definition c_isspace (c : N) : bool :=
  ((0x09 <=? c) && (c <=? 0x0D) || (c =? 0x20))%N.

Definition is_digit (c : N) : bool := ((0x30 <=? c) && (c <=? 0x39))%N.
Definition underscore : N := 0x5F%N.

(** The longest prefix of digits and underscores, and what follows. *)
Fixpoint span_digits (s : pystr) : pystr * pystr :=
  match s with
  | c :: s' =>
      if is_digit c || (c =? underscore)%N
      then let '(body, rest) := span_digits s' in (c :: body, rest)
      else ([], s)
  | [] => ([], [])
  end.

(** Underscores are single and stand between two digits. *)
Fixpoint grouping_ok (prev_underscore : bool) (body : pystr) : bool :=
  match body with
  | [] => negb prev_underscore
  | c :: body' =>
      if (c =? underscore)%N
      then negb prev_underscore && grouping_ok true body'
      else grouping_ok false body'
  end.

Definition digits_value (ds : pystr) : Z :=
  foldl (fun acc c => 10 * acc + (Z.of_N c - 0x30)) 0 ds.

(** The interpreter's default bound on the digits of a string that is
    converted to an integer. *)
Definition int_max_str_digits : nat := 4300.

(** [int(s)] for a string [s]; [None] stands for [ValueError]. *)
Definition int_of_str (s : pystr) : option Z :=
  let a := lstrip_with c_isspace (to_ascii <$> s) in
  let '(negative, a) :=
    match a with
    | 0x2B%N :: a' => (false, a')
    | 0x2D%N :: a' => (true, a')
    | _ => (false, a)
    end in
  let '(body, rest) := span_digits a in
  let ds := filter (fun c => c ≠ underscore) body in
  if bool_decide (ds = [])
     || negb (grouping_ok true body)
     || negb (Nat.leb (length ds) int_max_str_digits)
     || negb (forallb c_isspace rest)
  then None
  else Some (if negative then - digits_value ds else digits_value ds).

End PyStr.

(** ** Request bodies *)

(** What [request.get_json] returns: the Python value of a JSON
    document.  An object is a [dict] keyed by strings. *)
#[local] Set Warnings "-register-all".

Inductive json : Type :=
| JNull
| JBool (b : bool)
| JInt (n : Z)
| JFloat (literal : pystr)
| JStr (s : pystr)
| JList (items : list json)
| JDict (fields : gmap pystr json).

(** ** The conversations table *)

(** The clock of the store counts the seconds since 1970-01-01
    00:00:00 UTC.  The last second that SQLite renders as a date is
    9999-12-31 23:59:59. *)
Definition stamp_max : N := 253402300799.

(** What CURRENT_TIMESTAMP stores: the text [YYYY-MM-DD HH:MM:SS] of a
    second, or the text [0000-00-00 00:00:00]. *)
Inductive timestamp : Type :=
| Stamp (seconds : N)
| ZeroStamp.

(** [CURRENT_TIMESTAMP] at a clock reading: past the last second that
    can be rendered the date is in error and every field of the text
    is zero. *)
Definition current_timestamp (now : N) : timestamp :=
  if (now <=? stamp_max)%N then Stamp now else ZeroStamp.

(** [datetime(created_at)]: the text of a date as it is, and NULL (here
    [None]) for the text that is no date. *)
Definition datetime (ts : timestamp) : option N :=
  match ts with
  | Stamp s => Some s
  | ZeroStamp => None
  end.

(** The place of [datetime(created_at)] in the order of SQLite: the
    texts of dates in the order of their seconds, NULL below all of
    them. *)
Definition sort_key (ts : timestamp) : Z :=
  match datetime ts with
  | Some s => Z.of_N s
  | None => -1
  end.

(** One row of [conversations]. *)
Record row : Type := Row {
  row_id : Z;
  row_prompt : pystr;
  row_response : pystr;
  row_created_at : timestamp
}.

(** The table with its rows in insertion order, and its entry in
    [sqlite_sequence]: the largest id that AUTOINCREMENT ever gave. *)
Record table : Type := Table {
  rows : list row;
  seq : Z
}.

(** The database file: [None] while [conversations] does not exist. *)
Abbreviation database := (option table).

Definition records (d : database) : list row :=
  match d with
  | Some t => rows t
  | None => []
  end.

Definition int64_max : Z := 9223372036854775807.
Definition int64_min : Z := -9223372036854775808.

Definition fits_int64 (n : Z) : bool :=
  (int64_min <=? n) && (n <=? int64_max).

(** The largest id among the rows; 0 for no rows. *)
Fixpoint max_id (rs : list row) : Z :=
  match rs with
  | [] => 0
  | [r] => row_id r
  | r :: rs' => Z.max (row_id r) (max_id rs')
  end.

(** The largest id the table has ever held. *)
Definition largest_id (t : table) : Z := Z.max (seq t) (max_id (rows t)).

(** [INSERT INTO conversations (prompt, response) VALUES (?, ?)] at
    clock reading [now]: the id is one more than the largest ever, the
    time stamp is the default.  [None] when the ids are used up. *)
Definition insert_row (now : N) (prompt reply : pystr) (t : table)
  : option table :=
  if int64_max <=? largest_id t then None
  else
    let i := largest_id t + 1 in
    Some {| rows := rows t ++ [Row i prompt reply (current_timestamp now)];
            seq := i |}.

(** [ORDER BY datetime(created_at) DESC, id DESC]: [a] is listed no
    later than [b]. *)
Definition listed_before (a b : row) : Prop :=
  sort_key (row_created_at b) < sort_key (row_created_at a)
  \/ (sort_key (row_created_at b) = sort_key (row_created_at a)
      /\ row_id b <= row_id a).

#[global] Instance listed_before_dec a b : Decision (listed_before a b).
Proof. unfold listed_before. apply _. Defined.

(** [LIMIT ? OFFSET ?]: a negative offset counts as zero, a negative
    limit as no limit. *)
Definition limit_offset {A} (limit offset : Z) (l : list A) : list A :=
  let l' := drop (Z.to_nat offset) l in
  if limit <? 0 then l' else take (Z.to_nat limit) l'.

(** The SELECT of [history]. *)
Definition select_recent (limit offset : Z) (t : table) : list row :=
  limit_offset limit offset (merge_sort listed_before (rows t)).

(** A text can be bound to a statement when it encodes as UTF-8, which
    a lone surrogate does not. *)
Definition utf8_encodable (s : pystr) : bool :=
  forallb (fun c => negb ((0xD800 <=? c) && (c <=? 0xDFFF))%N) s.

(** ** The world a request runs in *)

(** What a request cannot control: the clock of the store, whether the
    store's calls fail, and the tokenizer and the model that were
    loaded at startup.  A call of these that raises gives [None]. *)
Record env : Type := Env {
  now : N;
  connect_fails : bool;
  execute_fails : bool;
  commit_fails : bool;
  apply_chat_template : pystr -> option pystr;
  tokenize : pystr -> option (list Z);
  model_generate : list Z -> option (list Z);
  decode : list Z -> option pystr
}.

Inductive sql : Type :=
| CreateTable
| Insert (prompt reply : pystr)
| Select (limit offset : Z).

(** The calls that leave the handler, in the order they are made. *)
Inductive event : Type :=
| EvConnect
| EvConnectFailed
| EvExecute (q : sql)
| EvCommit
| EvClose
| EvOracle (prompt : pystr).

Definition is_store_event (ev : event) : bool :=
  match ev with
  | EvOracle _ => false
  | _ => true
  end.

(** The calls to the store among the calls of a request. *)
Definition store_calls (tr : list event) : list event :=
  List.filter is_store_event tr.

(** An open [sqlite3] connection: the table as its open transaction has
    changed it, if it has one. *)
Record connection : Type := Connection {
  txn : option table
}.

(** The database file, the [_db] attribute of the request's [g], and the
    calls made so far. *)
Record world : Type := World {
  disk : database;
  g_db : option connection;
  trace : list event
}.

Inductive exn : Type :=
| BadRequest
| NotFound
| MethodNotAllowed
| AttributeError
| ModelError
| OperationalError
| OverflowError
| UnicodeEncodeError.

Inductive outcome (A : Type) : Type :=
| Return (a : A)
| Raise (e : exn).
Arguments Return {A} a.
Arguments Raise {A} e.

(** A computation that reads and changes the world and may raise. *)
Definition M (A : Type) : Type := world -> outcome A * world.

#[global] Instance M_ret : MRet M := fun A a w => (Return a, w).
#[global] Instance M_bind : MBind M := fun A B f m w =>
  match m w with
  | (Return a, w') => f a w'
  | (Raise e, w') => (Raise e, w')
  end.

Definition raise {A} (e : exn) : M A := fun w => (Raise e, w).

Definition emit (ev : event) : M unit := fun w =>
  (Return (), {| disk := disk w; g_db := g_db w; trace := trace w ++ [ev] |}).

Definition read_g : M (option connection) := fun w => (Return (g_db w), w).

Definition write_g (c : option connection) : M unit := fun w =>
  (Return (), {| disk := disk w; g_db := c; trace := trace w |}).

Definition read_disk : M database := fun w => (Return (disk w), w).

Definition write_disk (d : database) : M unit := fun w =>
  (Return (), {| disk := d; g_db := g_db w; trace := trace w |}).

(** ** The connection of a request *)

(** [sqlite3.connect(DB_PATH)] *)
Definition sqlite3_connect (e : env) : M connection :=
  if connect_fails e then emit EvConnectFailed ;; raise OperationalError
  else emit EvConnect ;; mret (Connection None).

(** [get_db]: the connection of the request, opened on the first call
    and kept on [g]. *)
Definition get_db (e : env) : M connection :=
  g ← read_g;
  match g with
  | Some c => mret c
  | None =>
      c ← sqlite3_connect e;
      write_g (Some c) ;;
      mret c
  end.

(** [close_db]: takes [_db] off [g] and closes it if it was there.  A
    transaction that is still open is lost with the connection. *)
Definition close_db : M unit :=
  g ← read_g;
  write_g None ;;
  match g with
  | Some _ => emit EvClose
  | None => mret ()
  end.

(** What the request's connection sees: its open transaction, or the
    file. *)
Definition view (c : connection) (d : database) : database :=
  match txn c with
  | Some t => Some t
  | None => d
  end.

(** [db.execute(INSERT ..., (prompt, reply))] on the connection of [g].
    The statement is prepared, its arguments are bound and it is run;
    the row stays in the connection's transaction. *)
Definition execute_insert (e : env) (prompt reply : pystr) : M unit :=
  emit (EvExecute (Insert prompt reply)) ;;
  g ← read_g;
  d ← read_disk;
  match g with
  | None => raise OperationalError
  | Some c =>
      match view c d with
      | None => raise OperationalError
      | Some t =>
          if negb (utf8_encodable prompt && utf8_encodable reply)
          then raise UnicodeEncodeError
          else if execute_fails e then raise OperationalError
          else match insert_row (now e) prompt reply t with
               | None => raise OperationalError
               | Some t' => write_g (Some (Connection (Some t')))
               end
      end
  end.

(** [db.commit()]: writes the open transaction, if any, to the file. *)
Definition commit (e : env) : M unit :=
  emit EvCommit ;;
  g ← read_g;
  match g with
  | None => raise OperationalError
  | Some c =>
      match txn c with
      | None => mret ()
      | Some t =>
          if commit_fails e then raise OperationalError
          else write_disk (Some t) ;; write_g (Some (Connection None))
      end
  end.

(** [db.execute(SELECT ..., (limit, offset)).fetchall()] *)
Definition execute_select (e : env) (limit offset : Z) : M (list row) :=
  emit (EvExecute (Select limit offset)) ;;
  g ← read_g;
  d ← read_disk;
  match g with
  | None => raise OperationalError
  | Some c =>
      match view c d with
      | None => raise OperationalError
      | Some t =>
          if negb (fits_int64 limit && fits_int64 offset)
          then raise OverflowError
          else if execute_fails e then raise OperationalError
          else mret (select_recent limit offset t)
      end
  end.

(** ** Startup *)

Definition empty_table : table := {| rows := []; seq := 0 |}.

(** [init_db]: a connection of its own, outside any request.  CREATE
    TABLE IF NOT EXISTS is not run in a transaction: the table is in the
    file when [execute] returns, and the [commit] after it has nothing
    to write. *)
Definition init_db (e : env) : M unit :=
  _ ← sqlite3_connect e;
  emit (EvExecute CreateTable) ;;
  (if execute_fails e then raise OperationalError
   else
     d ← read_disk;
     match d with
     | Some _ => mret ()
     | None => write_disk (Some empty_table)
     end) ;;
  emit EvCommit ;;
  emit EvClose.

(** ** The completion oracle *)

(** Lines 91 to 110 of [generate]: the chat template around the prompt
    as the one user message, the tokenizer, [model.generate], and the
    decoding of the tokens after the input, stripped. *)
Definition complete (e : env) (prompt : pystr) : option pystr :=
  text ← apply_chat_template e prompt;
  inputs ← tokenize e text;
  output_ids ← model_generate e inputs;
  let input_len := length inputs in
  decoded ← decode e (drop input_len output_ids);
  Some (PyStr.strip decoded).

Definition call_oracle (e : env) (prompt : pystr) : M pystr :=
  emit (EvOracle prompt) ;;
  match complete e prompt with
  | Some reply => mret reply
  | None => raise ModelError
  end.

(** ** Responses *)

(** One element of the list that [history] returns. *)
Record entry : Type := Entry {
  entry_id : Z;
  entry_prompt : pystr;
  entry_response : pystr;
  entry_created_at : timestamp
}.

Definition to_entry (r : row) : entry :=
  {| entry_id := row_id r;
     entry_prompt := row_prompt r;
     entry_response := row_response r;
     entry_created_at := row_created_at r |}.

Inductive payload : Type :=
| EmptyBody
| ReplyBody (reply : pystr)
| ErrorBody (error : pystr)
| HistoryBody (items : list entry)
| ExceptionBody (e : exn).

Record response : Type := Response {
  status : Z;
  body : payload
}.

(** ** POST /generate *)

(** [request.get_json(force=True)]; the body is [None] when it is not a
    JSON document. *)
Definition get_json (raw : option json) : M json :=
  match raw with
  | Some data => mret data
  | None => raise BadRequest
  end.

(** [data.get(key, default)]: only a [dict] has the method. *)
Definition py_get (data : json) (key : pystr) (dflt : json) : M json :=
  match data with
  | JDict fields => mret (default dflt (fields !! key))
  | _ => raise AttributeError
  end.

Definition is_str (value : json) : bool :=
  match value with
  | JStr _ => true
  | _ => false
  end.

(** [value.strip()]: only a [str] has the method. *)
Definition py_strip (value : json) : M pystr :=
  match value with
  | JStr s => mret (PyStr.strip s)
  | _ => raise AttributeError
  end.

Definition generate (e : env) (raw : option json) : M response :=
  data ← get_json raw;
  value ← py_get data (py "prompt") (JStr []);
  prompt ← py_strip value;
  reply ← call_oracle e prompt;
  _ ← get_db e;
  execute_insert e prompt reply ;;
  commit e ;;
  mret {| status := 200; body := ReplyBody reply |}.

(** ** GET /history *)

(** [request.args.get(key)]: the first value of the key in the query
    string. *)
Fixpoint args_get (args : list (pystr * pystr)) (key : pystr)
  : option pystr :=
  match args with
  | [] => None
  | (k, v) :: args' =>
      if bool_decide (k = key) then Some v else args_get args' key
  end.

(** [int(request.args.get(key, default))]; [None] stands for the
    [ValueError]. *)
Definition int_arg (args : list (pystr * pystr)) (key : pystr)
    (dflt : Z) : option Z :=
  match args_get args key with
  | Some s => PyStr.int_of_str s
  | None => Some dflt
  end.

(** The [try] block of [history]. *)
Definition parse_paging (args : list (pystr * pystr)) : option (Z * Z) :=
  limit ← int_arg args (py "limit") 5;
  offset ← int_arg args (py "offset") 0;
  Some (limit, offset).

Definition history (e : env) (args : list (pystr * pystr)) : M response :=
  match parse_paging args with
  | None =>
      mret {| status := 400;
              body := ErrorBody (py "limit/offset must be integers") |}
  | Some (limit, offset) =>
      _ ← get_db e;
      rows ← execute_select e limit offset;
      mret {| status := 200; body := HistoryBody (to_entry <$> rows) |}
  end.

(** ** One request *)

(** The requests that the two routes tell apart.  A HEAD on /history
    is served by the view function of GET; an OPTIONS on a path that
    has a rule is answered by Flask itself; any other method on the two
    paths is not allowed, and no other path has a view function of this
    file. *)
Inductive request : Type :=
| PostGenerate (raw : option json)
| GetHistory (args : list (pystr * pystr))
| HeadHistory (args : list (pystr * pystr))
| Options
| WrongMethod
| OtherRoute.

Definition dispatch (e : env) (req : request) : M response :=
  match req with
  | PostGenerate raw => generate e raw
  | GetHistory args => history e args
  | HeadHistory args => history e args
  | Options => mret {| status := 200; body := EmptyBody |}
  | WrongMethod => raise MethodNotAllowed
  | OtherRoute => raise NotFound
  end.

(** The response for an exception that leaves the view function. *)
Definition handle_exception (x : exn) : response :=
  {| status := match x with
               | BadRequest => 400
               | NotFound => 404
               | MethodNotAllowed => 405
               | _ => 500
               end;
     body := ExceptionBody x |}.

(** The response as it is sent: to a HEAD without its body. *)
Definition finalize (req : request) (r : response) : response :=
  match req with
  | HeadHistory _ => {| status := status r; body := EmptyBody |}
  | _ => r
  end.

(** A request from an empty [g] to the end of its application context:
    the view function runs, then [close_db] as the teardown function,
    whether the view function returned or raised. *)
Definition run_request (e : env) (req : request) (d : database)
  : response * world :=
  let '(out, w) := dispatch e req {| disk := d; g_db := None; trace := [] |} in
  let '(_, w') := close_db w in
  (finalize req match out with
                | Return r => r
                | Raise x => handle_exception x
                end, w').

Definition serve (e : env) (req : request) (d : database)
  : response * database :=
  let '(r, w) := run_request e req d in (r, disk w).

Definition calls (e : env) (req : request) (d : database) : list event :=
  trace (run_request e req d).2.

(** The store after a sequence of requests, each with the environment it
    ran in. *)
Definition run (d : database) (reqs : list (env * request)) : database :=
  foldl (fun d' er => (serve er.1 er.2 d').2) d reqs.

(** The store after [init_db], and whether it returned. *)
Definition startup (e : env) (d : database) : outcome unit * database :=
  let '(out, w) := init_db e {| disk := d; g_db := None; trace := [] |} in
  (out, disk w).

(** ** The runs of the two routes, case by case *)

(** The store calls of a request that opened its connection and raised
    at [execute] or at [commit]. *)
Inductive failed_store_calls (q : sql) : list event -> Prop :=
| failed_at_execute :
    failed_store_calls q [EvConnect; EvExecute q; EvClose]
| failed_at_commit :
    failed_store_calls q [EvConnect; EvExecute q; EvCommit; EvClose].

(** Every run of POST /generate: the response, and the world when the
    request has ended. *)
Inductive generate_run (e : env) (d : database)
  : option json -> response -> world -> Prop :=
| gen_malformed :
    generate_run e d None (handle_exception BadRequest)
      {| disk := d; g_db := None; trace := [] |}
| gen_not_a_dict data :
    (forall fields, data <> JDict fields) ->
    generate_run e d (Some data) (handle_exception AttributeError)
      {| disk := d; g_db := None; trace := [] |}
| gen_not_a_str fields :
    (forall s, default (JStr []) (fields !! py "prompt") <> JStr s) ->
    generate_run e d (Some (JDict fields)) (handle_exception AttributeError)
      {| disk := d; g_db := None; trace := [] |}
| gen_oracle_fails fields s :
    default (JStr []) (fields !! py "prompt") = JStr s ->
    complete e (PyStr.strip s) = None ->
    generate_run e d (Some (JDict fields)) (handle_exception ModelError)
      {| disk := d; g_db := None; trace := [EvOracle (PyStr.strip s)] |}
| gen_connect_fails fields s reply :
    default (JStr []) (fields !! py "prompt") = JStr s ->
    complete e (PyStr.strip s) = Some reply ->
    connect_fails e = true ->
    generate_run e d (Some (JDict fields))
      (handle_exception OperationalError)
      {| disk := d; g_db := None;
         trace := [EvOracle (PyStr.strip s); EvConnectFailed] |}
| gen_store_fails fields s reply x tr :
    default (JStr []) (fields !! py "prompt") = JStr s ->
    complete e (PyStr.strip s) = Some reply ->
    connect_fails e = false ->
    x = OperationalError \/ x = UnicodeEncodeError ->
    failed_store_calls (Insert (PyStr.strip s) reply) tr ->
    generate_run e d (Some (JDict fields)) (handle_exception x)
      {| disk := d; g_db := None;
         trace := EvOracle (PyStr.strip s) :: tr |}
| gen_ok fields s reply t t' :
    default (JStr []) (fields !! py "prompt") = JStr s ->
    complete e (PyStr.strip s) = Some reply ->
    connect_fails e = false ->
    execute_fails e = false ->
    commit_fails e = false ->
    d = Some t ->
    utf8_encodable (PyStr.strip s) && utf8_encodable reply = true ->
    insert_row (now e) (PyStr.strip s) reply t = Some t' ->
    generate_run e d (Some (JDict fields))
      {| status := 200; body := ReplyBody reply |}
      {| disk := Some t'; g_db := None;
         trace := [EvOracle (PyStr.strip s); EvConnect;
                   EvExecute (Insert (PyStr.strip s) reply);
                   EvCommit; EvClose] |}.

(** Every run of GET /history. *)
Inductive history_run (e : env) (d : database)
  : list (pystr * pystr) -> response -> world -> Prop :=
| hist_bad_paging args :
    parse_paging args = None ->
    history_run e d args
      {| status := 400;
         body := ErrorBody (py "limit/offset must be integers") |}
      {| disk := d; g_db := None; trace := [] |}
| hist_connect_fails args limit offset :
    parse_paging args = Some (limit, offset) ->
    connect_fails e = true ->
    history_run e d args (handle_exception OperationalError)
      {| disk := d; g_db := None; trace := [EvConnectFailed] |}
| hist_query_fails args limit offset x :
    parse_paging args = Some (limit, offset) ->
    connect_fails e = false ->
    x = OperationalError \/ x = OverflowError ->
    history_run e d args (handle_exception x)
      {| disk := d; g_db := None;
         trace := [EvConnect; EvExecute (Select limit offset); EvClose] |}
| hist_ok args limit offset t :
    parse_paging args = Some (limit, offset) ->
    connect_fails e = false ->
    execute_fails e = false ->
    d = Some t ->
    fits_int64 limit && fits_int64 offset = true ->
    history_run e d args
      {| status := 200;
         body := HistoryBody (to_entry <$> select_recent limit offset t) |}
      {| disk := d; g_db := None;
         trace := [EvConnect; EvExecute (Select limit offset); EvClose] |}.

(** The ids grow along the table and none is above [seq]. *)
Definition ids_increase (t : table) : Prop :=
  StronglySorted (fun a b => row_id a < row_id b) (rows t)
  /\ Forall (fun r => row_id r <= seq t) (rows t).

(** The clock readings do not go down along the table. *)
Definition times_non_decreasing (rs : list row) : Prop :=
  StronglySorted
    (fun a b => sort_key (row_created_at a) <= sort_key (row_created_at b))
    rs.

(** A table whose ids grow and whose clock readings do not go down
    along it, none of them after [c]. *)
Definition in_order (c : Z) (t : table) : Prop :=
  ids_increase t
  /\ times_non_decreasing (rows t)
  /\ Forall (fun r => sort_key (row_created_at r) <= c) (rows t).

(** The clock never goes back from one request to a later one. *)
Definition clock_non_decreasing (reqs : list (env * request)) : Prop :=
  StronglySorted (fun a b => (now a.1 <= now b.1)%N) reqs.

(** The clock stays within the seconds that SQLite renders as dates. *)
Definition clock_in_range (reqs : list (env * request)) : Prop :=
  Forall (fun er => (now er.1 <= stamp_max)%N) reqs.

(** The order of [listed_before] on the elements of a response. *)
Definition entry_listed_before (a b : entry) : Prop :=
  sort_key (entry_created_at b) < sort_key (entry_created_at a)
  \/ (sort_key (entry_created_at b) = sort_key (entry_created_at a)
      /\ entry_id b <= entry_id a).

(** Of two rows of the store, the one inserted later stands first in
    the response when both are in it. *)
Definition newest_inserted_first (d : database) (items : list entry)
  : Prop :=
  forall (i j k l : nat) (a b : row),
    (i < j)%nat ->
    records d !! i = Some a -> records d !! j = Some b ->
    items !! k = Some (to_entry a) -> items !! l = Some (to_entry b) ->
    (l < k)%nat.

(** The store calls of one request: none, or a connection that could
    not be opened, or one connection that is opened first, used by
    every statement and commit, and closed last. *)
Inductive one_connection : list event -> Prop :=
| no_store_access :
    one_connection []
| connection_refused :
    one_connection [EvConnectFailed]
| opened_used_closed uses :
    Forall (fun ev => ev = EvCommit \/ exists q, ev = EvExecute q) uses ->
    one_connection (EvConnect :: uses ++ [EvClose]).

(** Startups and requests in any order. *)
Inductive op : Type :=
| OpInit (e : env)
| OpServe (e : env) (req : request).

(** The outcomes of the startups of a sequence, and the store after
    it. *)
Fixpoint run_ops (d : database) (ops : list op)
  : list (outcome unit) * database :=
  match ops with
  | [] => ([], d)
  | OpInit e :: ops' =>
      let '(out, d') := startup e d in
      let '(outs, d'') := run_ops d' ops' in
      (out :: outs, d'')
  | OpServe e req :: ops' => run_ops (serve e req d).2 ops'
  end.

Definition requests_of (ops : list op) : list (env * request) :=
  omap (fun o => match o with
                 | OpServe e req => Some (e, req)
                 | OpInit _ => None
                 end) ops.

(** The store can be opened and written to. *)
Definition writable (e : env) : Prop :=
  connect_fails e = false /\ execute_fails e = false.

Definition init_writable (o : op) : Prop :=
  match o with
  | OpInit e => writable e
  | OpServe _ _ => True
  end.

(** ** A small world to run the service in *)

(** An oracle that answers every prompt with [ok]: the template wraps
    the prompt, a token is a code point, and the model appends its
    answer to the input. *)
Definition echo_env (t : N) : env :=
  {| now := t;
     connect_fails := false;
     execute_fails := false;
     commit_fails := false;
     apply_chat_template := fun p => Some (py "<user>" ++ p ++ py "<assistant>");
     tokenize := fun s => Some (Z.of_N <$> s);
     model_generate := fun ids => Some (ids ++ [0x20; 0x6F; 0x6B; 0x0A]);
     decode := fun ids => Some (Z.to_N <$> ids) |}.

(** The same world with a model that raises. *)
Definition broken_model_env (t : N) : env :=
  {| now := t;
     connect_fails := false;
     execute_fails := false;
     commit_fails := false;
     apply_chat_template := apply_chat_template (echo_env t);
     tokenize := tokenize (echo_env t);
     model_generate := fun _ => None;
     decode := decode (echo_env t) |}.

(** The body [{"prompt": s}]. *)
Definition prompt_body (s : pystr) : option json :=
  Some (JDict {[ py "prompt" := JStr s ]}).

(** Three rows, the second as old as the first. *)
Definition three_rows : database :=
  Some {| rows := [Row 1 (py "a") (py "x") (Stamp 5);
                   Row 2 (py "b") (py "y") (Stamp 5);
                   Row 3 (py "c") (py "z") (Stamp 7)];
          seq := 3 |}.

(** ** More of the service *)

Definition is_dict (data : json) : bool :=
  match data with
  | JDict _ => true
  | _ => false
  end.

(** The responses to a sequence of requests, in order. *)
Fixpoint transcript (d : database) (reqs : list (env * request))
  : list response :=
  match reqs with
  | [] => []
  | (e, req) :: reqs' =>
      (serve e req d).1 :: transcript (serve e req d).2 reqs'
  end.

(** The reply of a response of POST /generate that carries one. *)
Definition reply_of (r : response) : option pystr :=
  match body r with
  | ReplyBody reply => Some reply
  | _ => None
  end.

(** The ids are 1, 2, ... along the table and [seq] is the last of
    them. *)
Definition numbered (t : table) : Prop :=
  row_id <$> rows t = Z.of_nat <$> List.seq 1 (length (rows t))
  /\ seq t = Z.of_nat (length (rows t)).

(** The world of [echo_env] with a store that cannot commit. *)
Definition no_commit_env (t : N) : env :=
  {| now := t;
     connect_fails := false;
     execute_fails := false;
     commit_fails := true;
     apply_chat_template := apply_chat_template (echo_env t);
     tokenize := tokenize (echo_env t);
     model_generate := model_generate (echo_env t);
     decode := decode (echo_env t) |}.

(** The world of [echo_env] with a store that cannot be opened. *)
Definition no_connect_env (t : N) : env :=
  {| now := t;
     connect_fails := true;
     execute_fails := false;
     commit_fails := false;
     apply_chat_template := apply_chat_template (echo_env t);
     tokenize := tokenize (echo_env t);
     model_generate := model_generate (echo_env t);
     decode := decode (echo_env t) |}.

(** * Properties *)

#[local] Arguments py : simpl never.
#[local] Arguments PyStr.strip : simpl never.
#[local] Arguments complete : simpl never.
#[local] Arguments insert_row : simpl never.
#[local] Arguments select_recent : simpl never.
#[local] Arguments utf8_encodable : simpl never.
#[local] Arguments fits_int64 : simpl never.
#[local] Arguments parse_paging : simpl never.

Ltac unfold_handlers :=
  unfold serve, calls, run_request, dispatch, generate, history, init_db,
    get_json, py_get, py_strip, call_oracle, get_db, sqlite3_connect,
    execute_insert, execute_select, commit, close_db, emit, raise,
    read_g, write_g, read_disk, write_disk, view;
  unfold mbind, mret, M_bind, M_ret.

Lemma generate_run_total e raw d :
  generate_run e d raw
    (run_request e (PostGenerate raw) d).1
    (run_request e (PostGenerate raw) d).2.
Proof.
  destruct raw as [data|]; [|apply gen_malformed].
  destruct data as [ | | | | | |fields];
    try (apply gen_not_a_dict; discriminate).
  destruct (default (JStr []) (fields !! py "prompt")) as
    [ | | | |s| | ] eqn:Hv;
    try (unfold_handlers; cbn; rewrite Hv; cbn;
         apply gen_not_a_str; rewrite Hv; discriminate).
  unfold_handlers; cbn. rewrite Hv; cbn.
  destruct (complete e (PyStr.strip s)) as [reply|] eqn:Hc; cbn;
    [|by apply gen_oracle_fails].
  destruct (connect_fails e) eqn:Hcf; cbn;
    [by eapply gen_connect_fails|].
  destruct d as [t|]; cbn;
    [|eapply gen_store_fails; eauto using failed_store_calls].
  destruct (utf8_encodable (PyStr.strip s) && utf8_encodable reply) eqn:Hu;
    cbn; [|eapply gen_store_fails; eauto using failed_store_calls].
  destruct (execute_fails e) eqn:Hef; cbn;
    [eapply gen_store_fails; eauto using failed_store_calls|].
  destruct (insert_row (now e) (PyStr.strip s) reply t) as [t'|] eqn:Hi; cbn;
    [|eapply gen_store_fails; eauto using failed_store_calls].
  destruct (commit_fails e) eqn:Hmf; cbn;
    [eapply gen_store_fails; eauto using failed_store_calls|].
  by eapply gen_ok.
Qed.

Lemma history_run_total e args d :
  history_run e d args
    (run_request e (GetHistory args) d).1
    (run_request e (GetHistory args) d).2.
Proof.
  unfold_handlers; cbn.
  destruct (parse_paging args) as [[limit offset]|] eqn:Hp; cbn;
    [|by apply hist_bad_paging].
  destruct (connect_fails e) eqn:Hcf; cbn;
    [by eapply hist_connect_fails|].
  destruct d as [t|]; cbn; [|eapply hist_query_fails; eauto].
  destruct (fits_int64 limit && fits_int64 offset) eqn:Hf; cbn;
    [|eapply hist_query_fails; eauto].
  destruct (execute_fails e) eqn:Hef; cbn;
    [eapply hist_query_fails; eauto|].
  by eapply hist_ok.
Qed.

(** ** Strings *)

(** [int] on the texts of integers and on other texts. *)
Example int_of_str_examples :
  PyStr.int_of_str <$>
    [py "5"; py " 5 "; py "+5"; py "-3"; py "1_000"; py "_1"; py "1_";
     py "1__0"; py "abc"; []; py "1.5"; py "+ 5"; py "--5"; [0x663%N];
     [0x661; 0x5F; 0x662]%N; py "0x10"; py "007"; [0x1C; 0x35; 0x1F]%N;
     py "+"; py "-"; [0x3000; 0x35]%N; [0x31; 0xA0]%N; py "-0";
     py "1 2"; [0; 0x35]%N]
  = [Some 5; Some 5; Some 5; Some (-3); Some 1000; None; None;
     None; None; None; None; None; None; Some 3;
     Some 12; None; Some 7; None;
     None; None; Some 5; Some 1; Some 0;
     None; None].
Proof. vm_compute. reflexivity. Qed.

(** ** Stripping *)

Section StripFacts.
Variable ws : N -> bool.

Lemma lstrip_with_split s :
  exists l, s = l ++ PyStr.lstrip_with ws s /\ forallb ws l = true.
Proof.
  induction s as [|c s [l [Hs Hl]]]; [by exists []|].
  cbn. destruct (ws c) eqn:Hc.
  - exists (c :: l). cbn. rewrite Hc, Hl. by rewrite <- Hs.
  - by exists [].
Qed.

Lemma lstrip_with_head s c :
  head (PyStr.lstrip_with ws s) = Some c -> ws c = false.
Proof.
  induction s as [|c' s IH]; cbn; [done|].
  destruct (ws c') eqn:Hc; [done|]. cbn. congruence.
Qed.

Lemma rstrip_with_split s :
  exists r, s = PyStr.rstrip_with ws s ++ r /\ forallb ws r = true.
Proof.
  unfold PyStr.rstrip_with.
  destruct (lstrip_with_split (reverse s)) as [l [Hs Hl]].
  exists (reverse l). split.
  - rewrite <- reverse_app, <- Hs. by rewrite reverse_involutive.
  - rewrite forallb_forall in *. intros c Hc. apply Hl.
    rewrite <- list_elem_of_In in *. by rewrite elem_of_reverse in Hc.
Qed.

Lemma rstrip_with_last s c :
  last (PyStr.rstrip_with ws s) = Some c -> ws c = false.
Proof.
  unfold PyStr.rstrip_with. rewrite last_reverse.
  apply lstrip_with_head.
Qed.

Lemma rstrip_with_head s c :
  head (PyStr.rstrip_with ws s) = Some c -> head s = Some c.
Proof.
  destruct (rstrip_with_split s) as [r [Hs _]]. intros H.
  rewrite Hs, head_app, H. done.
Qed.

(** [strip] takes white space, and only white space, from both ends
    and leaves none at either end. *)
Lemma strip_with_spec s :
  exists l r,
    s = l ++ PyStr.strip_with ws s ++ r
    /\ forallb ws l = true /\ forallb ws r = true
    /\ (forall c, head (PyStr.strip_with ws s) = Some c -> ws c = false)
    /\ (forall c, last (PyStr.strip_with ws s) = Some c -> ws c = false).
Proof.
  unfold PyStr.strip_with.
  destruct (lstrip_with_split s) as [l [Hl Hwl]].
  destruct (rstrip_with_split (PyStr.lstrip_with ws s)) as [r [Hr Hwr]].
  exists l, r. repeat split; try done.
  - by rewrite <- Hr.
  - intros c Hc. apply rstrip_with_head in Hc.
    by apply lstrip_with_head in Hc.
  - apply rstrip_with_last.
Qed.
End StripFacts.

(** ** The order of the history *)

#[global] Instance listed_before_total : Total listed_before.
Proof. intros a b. unfold listed_before. lia. Qed.

#[global] Instance listed_before_trans : Transitive listed_before.
Proof. intros a b c. unfold listed_before. lia. Qed.

Lemma select_recent_sorted limit offset t :
  StronglySorted listed_before (select_recent limit offset t).
Proof.
  unfold select_recent, limit_offset.
  pose proof (StronglySorted_merge_sort listed_before (rows t)) as Hs.
  set (l := merge_sort listed_before (rows t)) in *.
  assert (Hd : StronglySorted listed_before (drop (Z.to_nat offset) l)).
  { rewrite <- (take_drop (Z.to_nat offset) l) in Hs.
    by apply StronglySorted_app_1_r in Hs. }
  destruct (limit <? 0); [done|].
  rewrite <- (take_drop (Z.to_nat limit) (drop (Z.to_nat offset) l)) in Hd.
  by apply StronglySorted_app_1_l in Hd.
Qed.

Lemma select_recent_elem_of limit offset t r :
  r ∈ select_recent limit offset t -> r ∈ rows t.
Proof.
  unfold select_recent, limit_offset. intros H.
  rewrite <- (merge_sort_Permutation listed_before (rows t)).
  destruct (limit <? 0).
  - by eapply subseteq_drop.
  - eapply subseteq_drop, subseteq_take, H.
Qed.

Lemma StronglySorted_lookup {A} (R : relation A) (l : list A) i j x y :
  StronglySorted R l -> (i < j)%nat ->
  l !! i = Some x -> l !! j = Some y -> R x y.
Proof.
  intros Hs. revert i j. induction Hs as [|a l Hs IH Ha]; intros i j Hij Hi Hj.
  - done.
  - destruct j as [|j]; [lia|]. cbn in Hj. destruct i as [|i]; cbn in Hi.
    + simplify_eq. rewrite Forall_forall in Ha. apply Ha.
      by eapply list_elem_of_lookup_2.
    + eapply (IH i j); [lia|done..].
Qed.

(** ** Rows in insertion order *)

Lemma max_id_ge rs r : r ∈ rs -> row_id r <= max_id rs.
Proof.
  induction 1 as [r rs|r r' rs Hr IH].
  - destruct rs; cbn; lia.
  - destruct rs as [|r'' rs]; [by apply elem_of_nil in Hr|].
    change (max_id (r' :: r'' :: rs))
      with (Z.max (row_id r') (max_id (r'' :: rs))).
    lia.
Qed.

Lemma insert_row_inv now p reply t t' :
  insert_row now p reply t = Some t' ->
  t' = {| rows := rows t
                  ++ [Row (largest_id t + 1) p reply (current_timestamp now)];
          seq := largest_id t + 1 |}
  /\ largest_id t < int64_max.
Proof.
  unfold insert_row. destruct (int64_max <=? largest_id t) eqn:H; [done|].
  intros [= <-]. split; [done|]. apply Z.leb_gt in H. lia.
Qed.

Lemma insert_row_ids_increase now p reply t t' :
  ids_increase t -> insert_row now p reply t = Some t' -> ids_increase t'.
Proof.
  intros [Hs Hb] [-> _]%insert_row_inv. split; cbn.
  - apply StronglySorted_app_2; [|done|repeat constructor].
    intros a b Ha ->%list_elem_of_singleton. cbn.
    apply max_id_ge in Ha. unfold largest_id. lia.
  - apply Forall_app. split.
    + eapply Forall_impl; [exact Hb|]. cbn. intros r Hr.
      unfold largest_id. lia.
    + repeat constructor. cbn. lia.
Qed.

(** ** What one request does to the store *)

Lemma serve_run_request e req d :
  serve e req d = ((run_request e req d).1, disk (run_request e req d).2).
Proof. unfold serve. by destruct (run_request e req d). Qed.

Lemma other_route_run e d :
  run_request e OtherRoute d
  = (handle_exception NotFound, {| disk := d; g_db := None; trace := [] |}).
Proof. reflexivity. Qed.

(** A HEAD on /history runs as the GET and is answered without the
    body. *)
Lemma head_history_run e args d :
  run_request e (HeadHistory args) d
  = ({| status := status (run_request e (GetHistory args) d).1;
        body := EmptyBody |},
     (run_request e (GetHistory args) d).2).
Proof.
  unfold run_request. cbn [dispatch].
  destruct (history e args {| disk := d; g_db := None; trace := [] |})
    as [out w].
  by destruct (close_db w).
Qed.

Lemma handle_exception_not_200 x : status (handle_exception x) <> 200.
Proof. by destruct x. Qed.

(** The one run of POST /generate that answers 200. *)
Lemma generate_run_200 e d raw resp w :
  generate_run e d raw resp w ->
  status resp = 200 ->
  exists fields s reply t t',
    raw = Some (JDict fields)
    /\ default (JStr []) (fields !! py "prompt") = JStr s
    /\ complete e (PyStr.strip s) = Some reply
    /\ d = Some t
    /\ insert_row (now e) (PyStr.strip s) reply t = Some t'
    /\ resp = {| status := 200; body := ReplyBody reply |}
    /\ disk w = Some t'
    /\ trace w = [EvOracle (PyStr.strip s); EvConnect;
                  EvExecute (Insert (PyStr.strip s) reply);
                  EvCommit; EvClose].
Proof.
  intros H Hs.
  destruct H as [ | | | | | |fields s reply t t' Hv Hc _ _ _ Hd _ Hi];
    try (by apply handle_exception_not_200 in Hs).
  by exists fields, s, reply, t, t'.
Qed.

(** Every other run leaves the file as it was. *)
Lemma generate_run_failed e d raw resp w :
  generate_run e d raw resp w ->
  status resp <> 200 ->
  disk w = d /\ 400 <= status resp.
Proof.
  intros H Hs.
  destruct H as [ | | | | |fields s reply x tr _ _ _ Hx _| ]; cbn; try done.
  by destruct Hx as [-> | ->].
Qed.

Lemma history_run_disk e d args resp w :
  history_run e d args resp w -> disk w = d.
Proof. by destruct 1. Qed.

(** A request leaves the file as it is or commits one inserted row. *)
Lemma serve_disk e req d :
  (serve e req d).2 = d
  \/ exists raw t t' p reply,
       req = PostGenerate raw /\ d = Some t
       /\ insert_row (now e) p reply t = Some t'
       /\ (serve e req d).2 = Some t'.
Proof.
  rewrite serve_run_request. cbn. destruct req as [raw|args|args| | |].
  - pose proof (generate_run_total e raw d) as H.
    destruct (decide (status (run_request e (PostGenerate raw) d).1 = 200))
      as [Hs|Hs].
    + right.
      destruct (generate_run_200 _ _ _ _ _ H Hs)
        as (fields & s & reply & t & t' & _ & _ & _ & Hd & Hi & _ & Hw & _).
      by exists raw, t, t', (PyStr.strip s), reply.
    + left. by destruct (generate_run_failed _ _ _ _ _ H Hs).
  - left. eapply history_run_disk, history_run_total.
  - left. rewrite head_history_run. cbn.
    eapply history_run_disk, history_run_total.
  - by left.
  - by left.
  - by left.
Qed.

Lemma serve_records e req d :
  exists extra,
    records (serve e req d).2 = records d ++ extra
    /\ (length extra <= 1)%nat.
Proof.
  destruct (serve_disk e req d)
    as [->|(raw & t & t' & p & reply & _ & -> & Hi & ->)].
  - exists []. rewrite app_nil_r. split; [done|cbn; lia].
  - apply insert_row_inv in Hi as [-> _]. cbn. eexists. split; [done|].
    cbn. lia.
Qed.

Lemma serve_is_Some e req d :
  is_Some d -> is_Some (serve e req d).2.
Proof.
  intros Hd. destruct (serve_disk e req d) as [->|H]; [done|].
  destruct H as (raw & t & t' & p & reply & _ & _ & _ & ->). done.
Qed.

Lemma run_records d reqs : records d `prefix_of` records (run d reqs).
Proof.
  revert d. induction reqs as [|[e req] reqs IH]; intros d; cbn; [done|].
  etrans; [|apply IH]. cbn.
  destruct (serve_records e req d) as [extra [-> _]].
  by apply prefix_app_r.
Qed.

(** C9: The service only appends: GET /history leaves the store as it is,
    and after any request every record that was in the store is still
    there, at its place and unchanged, with at most one record after
    them. *)
Theorem store_is_append_only (e : env) (req : request) (d : database) :
  (forall args, req = GetHistory args -> (serve e req d).2 = d)
  /\ (exists extra,
        records (serve e req d).2 = records d ++ extra
        /\ (length extra <= 1)%nat)
  /\ (forall (i : nat) (r : row),
        records d !! i = Some r -> records (serve e req d).2 !! i = Some r).
Proof.
  split; [|split].
  - intros args ->.
    destruct (serve_disk e (GetHistory args) d) as [H|H]; [done|].
    by destruct H as (raw & ? & ? & ? & ? & [=] & _).
  - apply serve_records.
  - intros i r Hi. destruct (serve_records e req d) as [extra [-> _]].
    by apply lookup_app_l_Some.
Qed.

(** C1: A POST /generate with prompt [P] that answers 200 has put exactly
    one record at the end of the store, with prompt [strip P] and the
    oracle's text for [strip P] as response, and has returned that
    text; it has called the oracle once and run one INSERT, committed,
    on its connection. *)
Theorem generate_success_appends_one
    (e : env) (fields : gmap pystr json) (P : pystr) (d : database) :
  fields !! py "prompt" = Some (JStr P) ->
  status (serve e (PostGenerate (Some (JDict fields))) d).1 = 200 ->
  exists (reply : pystr) (t : table),
    complete e (PyStr.strip P) = Some reply
    /\ body (serve e (PostGenerate (Some (JDict fields))) d).1
       = ReplyBody reply
    /\ d = Some t
    /\ records (serve e (PostGenerate (Some (JDict fields))) d).2
       = records d
         ++ [{| row_id := largest_id t + 1;
                row_prompt := PyStr.strip P;
                row_response := reply;
                row_created_at := current_timestamp (now e) |}]
    /\ calls e (PostGenerate (Some (JDict fields))) d
       = [EvOracle (PyStr.strip P); EvConnect;
          EvExecute (Insert (PyStr.strip P) reply); EvCommit; EvClose].
Proof.
  intros HP. unfold calls. rewrite serve_run_request. cbn. intros Hs.
  pose proof (generate_run_total e (Some (JDict fields)) d) as H.
  destruct (generate_run_200 _ _ _ _ _ H Hs)
    as (fields' & s & reply & t & t' & [= <-] & Hv & Hc & -> & Hi & ->
        & -> & ->).
  rewrite HP in Hv. cbn in Hv. injection Hv as <-.
  apply insert_row_inv in Hi as [-> _]. by exists reply, t.
Qed.

(** With the store in order, the oracle answering and texts that can be
    encoded, the call answers 200. *)
Lemma generate_succeeds e fields s reply t :
  default (JStr []) (fields !! py "prompt") = JStr s ->
  complete e (PyStr.strip s) = Some reply ->
  connect_fails e = false -> execute_fails e = false ->
  commit_fails e = false ->
  utf8_encodable (PyStr.strip s) && utf8_encodable reply = true ->
  largest_id t < int64_max ->
  status (serve e (PostGenerate (Some (JDict fields))) (Some t)).1 = 200.
Proof.
  intros Hv Hc Hcf Hef Hmf Hu Hl.
  unfold_handlers; cbn. rewrite Hv; cbn. rewrite Hc, Hcf; cbn.
  rewrite Hu, Hef; cbn. unfold insert_row.
  destruct (int64_max <=? largest_id t) eqn:Hle; [apply Z.leb_le in Hle; lia|].
  cbn. by rewrite Hmf.
Qed.

Lemma generate_success_appends_one_witness :
  serve (echo_env 10) (PostGenerate (prompt_body (py "  hi "))) (Some empty_table)
  = ({| status := 200; body := ReplyBody (py "ok") |},
     Some {| rows := [Row 1 (py "hi") (py "ok") (Stamp 10)]; seq := 1 |})
  /\ exists reply t,
       complete (echo_env 10) (PyStr.strip (py "  hi ")) = Some reply
       /\ body (serve (echo_env 10) (PostGenerate (prompt_body (py "  hi ")))
                 (Some empty_table)).1 = ReplyBody reply
       /\ Some empty_table = Some t
       /\ records (serve (echo_env 10)
                     (PostGenerate (prompt_body (py "  hi ")))
                     (Some empty_table)).2
          = records (Some empty_table)
            ++ [{| row_id := largest_id t + 1;
                   row_prompt := PyStr.strip (py "  hi ");
                   row_response := reply;
                   row_created_at := current_timestamp (now (echo_env 10)) |}]
       /\ calls (echo_env 10) (PostGenerate (prompt_body (py "  hi ")))
            (Some empty_table)
          = [EvOracle (PyStr.strip (py "  hi ")); EvConnect;
             EvExecute (Insert (PyStr.strip (py "  hi ")) reply);
             EvCommit; EvClose].
Proof.
  split; [vm_compute; reflexivity|].
  apply (generate_success_appends_one (echo_env 10)
           {[ py "prompt" := JStr (py "  hi ") ]} (py "  hi ")
           (Some empty_table)).
  - vm_compute. reflexivity.
  - vm_compute. reflexivity.
Defined.

(** ** Failures of POST /generate *)

Lemma generate_oracle_fails_run e fields s d :
  default (JStr []) (fields !! py "prompt") = JStr s ->
  complete e (PyStr.strip s) = None ->
  run_request e (PostGenerate (Some (JDict fields))) d
  = (handle_exception ModelError,
     {| disk := d; g_db := None; trace := [EvOracle (PyStr.strip s)] |}).
Proof.
  intros Hv Hc. unfold_handlers; cbn. rewrite Hv; cbn. by rewrite Hc.
Qed.

(** C2: A POST /generate that does not answer 200 answers with an error
    status and leaves the store as it was.  A body that is not JSON is
    answered 400 with no call to the store or the oracle; when the
    oracle raises the answer is 500 and the only call made is the one
    to the oracle. *)
Theorem generate_failure_persists_nothing
    (e : env) (raw : option json) (d : database) :
  (status (serve e (PostGenerate raw) d).1 <> 200 ->
     (serve e (PostGenerate raw) d).2 = d
     /\ 400 <= status (serve e (PostGenerate raw) d).1)
  /\ (raw = None ->
       serve e (PostGenerate raw) d = (handle_exception BadRequest, d)
       /\ calls e (PostGenerate raw) d = [])
  /\ (forall fields s,
       raw = Some (JDict fields) ->
       default (JStr []) (fields !! py "prompt") = JStr s ->
       complete e (PyStr.strip s) = None ->
       serve e (PostGenerate raw) d = (handle_exception ModelError, d)
       /\ calls e (PostGenerate raw) d = [EvOracle (PyStr.strip s)]).
Proof.
  split; [|split].
  - rewrite serve_run_request. cbn. intros Hs.
    eapply generate_run_failed; [apply generate_run_total|done].
  - by intros ->.
  - intros fields s -> Hv Hc. unfold calls. rewrite serve_run_request.
    by rewrite (generate_oracle_fails_run e fields s d Hv Hc).
Qed.

Lemma generate_failure_persists_nothing_witness :
  serve (broken_model_env 10) (PostGenerate (prompt_body (py " hi ")))
    three_rows
  = (handle_exception ModelError, three_rows)
  /\ calls (broken_model_env 10) (PostGenerate (prompt_body (py " hi ")))
       three_rows
     = [EvOracle (PyStr.strip (py " hi "))].
Proof.
  apply (proj2 (proj2 (generate_failure_persists_nothing
           (broken_model_env 10) (prompt_body (py " hi ")) three_rows))
           {[ py "prompt" := JStr (py " hi ") ]} (py " hi ")).
  - reflexivity.
  - vm_compute. reflexivity.
  - vm_compute. reflexivity.
Defined.

(** C10: A POST /generate whose body has a [prompt] that is not a string is
    answered 500; no call is made to the oracle or to the store, and the
    store stays as it was. *)
Theorem generate_rejects_non_string_prompt
    (e : env) (fields : gmap pystr json) (value : json) (d : database) :
  fields !! py "prompt" = Some value ->
  is_str value = false ->
  status (serve e (PostGenerate (Some (JDict fields))) d).1 = 500
  /\ calls e (PostGenerate (Some (JDict fields))) d = []
  /\ (serve e (PostGenerate (Some (JDict fields))) d).2 = d.
Proof.
  intros Hv Hs. unfold_handlers; cbn. rewrite Hv; cbn.
  by destruct value.
Qed.

Lemma generate_rejects_non_string_prompt_witness :
  Forall (fun value =>
    status (serve (echo_env 10)
              (PostGenerate (Some (JDict {[ py "prompt" := value ]})))
              three_rows).1 = 500
    /\ calls (echo_env 10)
         (PostGenerate (Some (JDict {[ py "prompt" := value ]})))
         three_rows = []
    /\ (serve (echo_env 10)
          (PostGenerate (Some (JDict {[ py "prompt" := value ]})))
          three_rows).2 = three_rows)
    [JInt 3; JNull; JList [JStr (py "hi")]].
Proof.
  apply Forall_cons_2;
    [|apply Forall_cons_2; [|apply Forall_cons_2; [|apply Forall_nil_2]]];
    (cbv beta;
     eapply (generate_rejects_non_string_prompt (echo_env 10));
     [vm_compute; reflexivity | reflexivity]).
Defined.

(** ** The paging parameters of GET /history *)

Lemma parse_paging_None args :
  parse_paging args = None <->
  int_arg args (py "limit") 5 = None \/ int_arg args (py "offset") 0 = None.
Proof.
  unfold parse_paging.
  destruct (int_arg args (py "limit") 5), (int_arg args (py "offset") 0);
    cbn; intuition congruence.
Qed.

Lemma int_arg_None args key dflt :
  int_arg args key dflt = None <->
  exists s, args_get args key = Some s /\ PyStr.int_of_str s = None.
Proof.
  unfold int_arg. destruct (args_get args key) as [s|]; split.
  - intros H. by exists s.
  - by intros (s' & [= <-] & H).
  - done.
  - by intros (s' & [=] & _).
Qed.

Lemma history_bad_paging_run e args d :
  parse_paging args = None ->
  run_request e (GetHistory args) d
  = ({| status := 400;
        body := ErrorBody (py "limit/offset must be integers") |},
     {| disk := d; g_db := None; trace := [] |}).
Proof. intros Hp. unfold_handlers; cbn. by rewrite Hp. Qed.

(** C5: A GET /history whose [limit] or [offset] is not the text of an
    integer is answered 400 with the error
    [limit/offset must be integers]; nothing is called, the store
    least of all, and the store stays as it was. *)
Theorem history_rejects_unparsable
    (e : env) (args : list (pystr * pystr)) (d : database) :
  (exists s, args_get args (py "limit") = Some s
             /\ PyStr.int_of_str s = None)
  \/ (exists s, args_get args (py "offset") = Some s
                /\ PyStr.int_of_str s = None) ->
  serve e (GetHistory args) d
  = ({| status := 400;
        body := ErrorBody (py "limit/offset must be integers") |}, d)
  /\ calls e (GetHistory args) d = [].
Proof.
  intros H. assert (Hp : parse_paging args = None).
  { apply parse_paging_None. rewrite !int_arg_None. done. }
  unfold calls. rewrite serve_run_request.
  by rewrite (history_bad_paging_run e args d Hp).
Qed.

Lemma history_rejects_unparsable_witness :
  serve (echo_env 10) (GetHistory [(py "limit", py "abc")]) three_rows
  = ({| status := 400;
        body := ErrorBody (py "limit/offset must be integers") |},
     three_rows)
  /\ calls (echo_env 10) (GetHistory [(py "limit", py "abc")]) three_rows
     = [].
Proof.
  apply (history_rejects_unparsable (echo_env 10)
           [(py "limit", py "abc")] three_rows).
  left. exists (py "abc"). split; vm_compute; reflexivity.
Defined.

(** C4: The handler turns away a [limit] or [offset] that is not the text
    of an integer, before anything reaches the store.  An integer of
    either sign goes to the store as it is, in the one query of the
    request; there a negative limit bounds nothing and a negative
    offset skips nothing. *)
Theorem history_paging_must_parse
    (e : env) (args : list (pystr * pystr)) (d : database) :
  (int_arg args (py "limit") 5 = None
   \/ int_arg args (py "offset") 0 = None ->
     status (serve e (GetHistory args) d).1 = 400
     /\ calls e (GetHistory args) d = [])
  /\ (forall limit offset,
        int_arg args (py "limit") 5 = Some limit ->
        int_arg args (py "offset") 0 = Some offset ->
        connect_fails e = false ->
        calls e (GetHistory args) d
        = [EvConnect; EvExecute (Select limit offset); EvClose])
  /\ (forall limit offset t,
        limit < 0 ->
        select_recent limit offset t
        = drop (Z.to_nat offset) (merge_sort listed_before (rows t)))
  /\ (forall limit offset t,
        offset < 0 ->
        select_recent limit offset t = select_recent limit 0 t).
Proof.
  split; [|split; [|split]].
  - intros Hp%parse_paging_None. unfold calls. rewrite serve_run_request.
    by rewrite (history_bad_paging_run e args d Hp).
  - intros limit offset Hl Ho Hcf.
    assert (Hp : parse_paging args = Some (limit, offset)).
    { unfold parse_paging. by rewrite Hl, Ho. }
    unfold_handlers; cbn. rewrite Hp, Hcf; cbn.
    destruct d as [t|]; cbn; [|done].
    destruct (fits_int64 limit && fits_int64 offset); cbn; [|done].
    by destruct (execute_fails e).
  - intros limit offset t Hl. unfold select_recent, limit_offset.
    apply Z.ltb_lt in Hl. by rewrite Hl.
  - intros limit offset t Ho. unfold select_recent, limit_offset.
    by replace (Z.to_nat offset) with (Z.to_nat 0) by lia.
Qed.

Lemma history_paging_must_parse_witness :
  calls (echo_env 10) (GetHistory [(py "limit", py "2")]) three_rows
  = [EvConnect; EvExecute (Select 2 0); EvClose].
Proof.
  apply (proj1 (proj2 (history_paging_must_parse (echo_env 10)
           [(py "limit", py "2")] three_rows)) 2 0).
  - vm_compute. reflexivity.
  - vm_compute. reflexivity.
  - reflexivity.
Defined.

(** With [limit=-1] the request is answered 200: the query reaches the
    store with the limit [-1] and every row comes back. *)
Lemma negative_limit_reaches_store :
  int_arg [(py "limit", py "-1")] (py "limit") 5 = Some (-1)
  /\ serve (echo_env 10) (GetHistory [(py "limit", py "-1")]) three_rows
     = ({| status := 200;
           body := HistoryBody [Entry 3 (py "c") (py "z") (Stamp 7);
                                Entry 2 (py "b") (py "y") (Stamp 5);
                                Entry 1 (py "a") (py "x") (Stamp 5)] |},
        three_rows)
  /\ calls (echo_env 10) (GetHistory [(py "limit", py "-1")]) three_rows
     = [EvConnect; EvExecute (Select (-1) 0); EvClose].
Proof. vm_compute. done. Qed.

(** ** The prompt of POST /generate *)

Lemma generate_missing_prompt_run e fields d :
  fields !! py "prompt" = None ->
  run_request e (PostGenerate (Some (JDict fields))) d
  = run_request e
      (PostGenerate (Some (JDict (<[py "prompt" := JStr []]> fields))))
      d.
Proof.
  intros H. unfold_handlers; cbn. by rewrite H, lookup_insert_eq.
Qed.

(** With a string for prompt, the first call is the oracle's, with the
    stripped prompt, and what follows are calls to the store that insert
    nothing but that prompt. *)
Lemma generate_run_prompt e d raw resp w fields s :
  generate_run e d raw resp w ->
  raw = Some (JDict fields) ->
  default (JStr []) (fields !! py "prompt") = JStr s ->
  exists tr,
    trace w = EvOracle (PyStr.strip s) :: tr
    /\ Forall (fun ev =>
          is_store_event ev = true
          /\ forall q reply,
               ev = EvExecute (Insert q reply) -> q = PyStr.strip s) tr.
Proof.
  intros H. 
  destruct H as [ |data Hd|fields' Hv'|fields' s' Hv' _
                 |fields' s' reply Hv' _ _|fields' s' reply x tr Hv' _ _ _ Ht
                 |fields' s' reply t t' Hv' _ _ _ _ _ _ _];
    intros [= ->] Hv; try (by destruct (Hd fields));
    try (by destruct (Hv' s));
    rewrite Hv in Hv'; injection Hv' as <-; cbn.
  - by exists [].
  - exists [EvConnectFailed]. split; [done|]. by repeat constructor.
  - exists tr. split; [done|].
    destruct Ht; repeat constructor; congruence.
  - eexists. split; [done|]. repeat constructor; congruence.
Qed.

(** C6: A JSON object without [prompt] is served as the same object with
    the empty string for prompt: the oracle is called, with the empty
    prompt.  Whatever string the prompt is, it is stripped of the white
    space at its two ends, and of nothing else, before the oracle is
    called, and the stripped prompt is the one that is inserted. *)
Theorem generate_prompt_default_and_trim
    (e : env) (fields : gmap pystr json) (d : database) :
  (fields !! py "prompt" = None ->
     run_request e (PostGenerate (Some (JDict fields))) d
     = run_request e
         (PostGenerate
            (Some (JDict (<[py "prompt" := JStr []]> fields)))) d
     /\ head (calls e (PostGenerate (Some (JDict fields))) d)
        = Some (EvOracle []))
  /\ (forall P,
        default (JStr []) (fields !! py "prompt") = JStr P ->
        (exists l r,
            P = l ++ PyStr.strip P ++ r
            /\ forallb PyStr.isspace l = true
            /\ forallb PyStr.isspace r = true
            /\ (forall c, head (PyStr.strip P) = Some c ->
                          PyStr.isspace c = false)
            /\ (forall c, last (PyStr.strip P) = Some c ->
                          PyStr.isspace c = false))
        /\ head (calls e (PostGenerate (Some (JDict fields))) d)
           = Some (EvOracle (PyStr.strip P))
        /\ (forall q,
              EvOracle q ∈ calls e (PostGenerate (Some (JDict fields))) d ->
              q = PyStr.strip P)
        /\ (forall q reply,
              EvExecute (Insert q reply)
                ∈ calls e (PostGenerate (Some (JDict fields))) d ->
              q = PyStr.strip P)
        /\ (forall r,
              r ∈ records (serve e (PostGenerate (Some (JDict fields))) d).2 ->
              r ∈ records d \/ row_prompt r = PyStr.strip P)).
Proof.
  assert (Hrun : forall P,
    default (JStr []) (fields !! py "prompt") = JStr P ->
    exists tr,
      calls e (PostGenerate (Some (JDict fields))) d
      = EvOracle (PyStr.strip P) :: tr
      /\ Forall (fun ev =>
            is_store_event ev = true
            /\ forall q reply,
                 ev = EvExecute (Insert q reply) -> q = PyStr.strip P) tr).
  { intros P HP. eapply generate_run_prompt;
      [apply generate_run_total|done..]. }
  split.
  - intros Hn. split; [by apply generate_missing_prompt_run|].
    destruct (Hrun []) as [tr [-> _]]; [by rewrite Hn|done].
  - intros P HP. destruct (Hrun P HP) as [tr [Htr Hall]].
    rewrite Forall_forall in Hall.
    split; [apply strip_with_spec|]. rewrite Htr.
    split; [done|]. split; [|split].
    + intros q [[= ->]|Hq]%elem_of_cons; [done|].
      by destruct (Hall _ Hq) as [? _].
    + intros q reply [[=]|Hq]%elem_of_cons.
      destruct (Hall _ Hq) as [_ Hi]. by eapply Hi.
    + intros r Hr. rewrite serve_run_request in Hr. cbn in Hr.
      pose proof (generate_run_total e (Some (JDict fields)) d) as H.
      destruct (decide
        (status (run_request e (PostGenerate (Some (JDict fields))) d).1
         = 200)) as [Hs|Hs].
      * destruct (generate_run_200 _ _ _ _ _ H Hs)
          as (f & s & reply & t & t' & [= <-] & Hv & _ & -> & Hi & _ & Hw & _).
        rewrite HP in Hv. injection Hv as <-. rewrite Hw in Hr.
        apply insert_row_inv in Hi as [-> _]. cbn in Hr.
        apply elem_of_app in Hr as [Hr|Hr]; [by left|right].
        by apply list_elem_of_singleton in Hr as ->.
      * destruct (generate_run_failed _ _ _ _ _ H Hs) as [Hw _].
        left. by rewrite Hw in Hr.
Qed.

Lemma generate_prompt_default_and_trim_witness :
  head (calls (echo_env 10) (PostGenerate (Some (JDict ∅))) three_rows)
  = Some (EvOracle [])
  /\ head (calls (echo_env 10)
             (PostGenerate (prompt_body (py "  hi there  "))) three_rows)
     = Some (EvOracle (py "hi there")).
Proof.
  split.
  - apply (proj1 (generate_prompt_default_and_trim (echo_env 10) ∅
             three_rows)).
    reflexivity.
  - refine (proj1 (proj2 (proj2 (generate_prompt_default_and_trim
             (echo_env 10) {[ py "prompt" := JStr (py "  hi there  ") ]}
             three_rows) (py "  hi there  ") _))).
    vm_compute. reflexivity.
Defined.

(** ** The connection of a request *)

(** A second [get_db] in a request gives the connection of the first
    and calls nothing. *)
Lemma get_db_reuses e w c :
  g_db w = Some c -> get_db e w = (Return c, w).
Proof. intros H. unfold_handlers. by rewrite H. Qed.

(** The first [get_db] of a request opens the connection and keeps it
    on [g]. *)
Lemma get_db_opens e w :
  g_db w = None -> connect_fails e = false ->
  get_db e w
  = (Return (Connection None),
     {| disk := disk w; g_db := Some (Connection None);
        trace := trace w ++ [EvConnect] |}).
Proof. intros H Hcf. unfold_handlers. by rewrite H, Hcf. Qed.

Ltac connection_uses :=
  repeat first
    [ apply Forall_nil_2
    | apply Forall_cons_2; [first [by left | right; eexists; reflexivity]|] ].

Lemma generate_run_connection e d raw resp w :
  generate_run e d raw resp w ->
  one_connection (store_calls (trace w))
  /\ g_db w = None.
Proof.
  intros H.
  destruct H as [ | | | | |fields s reply x tr _ _ _ _ Ht| ];
    try destruct Ht; (split; [cbn|done]);
    try apply no_store_access; try apply connection_refused.
  - apply (opened_used_closed [_]). connection_uses.
  - apply (opened_used_closed [_; _]). connection_uses.
  - apply (opened_used_closed [_; _]). connection_uses.
Qed.

Lemma history_run_connection e d args resp w :
  history_run e d args resp w ->
  one_connection (store_calls (trace w))
  /\ g_db w = None.
Proof.
  intros H. destruct H; (split; [cbn|done]);
    try apply no_store_access; try apply connection_refused;
    apply (opened_used_closed [_]); connection_uses.
Qed.

(** C8: In every request the calls to the store are those of one
    connection: it is opened by the first call to the store, no second
    one is opened ([get_db] gives the one on [g]), every statement and
    commit runs between its opening and its closing, and it is closed
    as the last call of the request, whether the view function returned
    or raised; nothing is left on [g].  A request that does not come to
    the store opens none. *)
Theorem one_connection_per_request (e : env) (req : request) (d : database) :
  one_connection (store_calls (calls e req d))
  /\ g_db (run_request e req d).2 = None
  /\ (forall w,
        g_db w = None -> connect_fails e = false ->
        get_db e w
        = (Return (Connection None),
           {| disk := disk w; g_db := Some (Connection None);
              trace := trace w ++ [EvConnect] |}))
  /\ (forall w c, g_db w = Some c -> get_db e w = (Return c, w)).
Proof.
  assert (H : one_connection (store_calls (calls e req d))
               /\ g_db (run_request e req d).2 = None).
  { unfold calls. destruct req as [raw|args|args| | |].
    - eapply generate_run_connection, generate_run_total.
    - eapply history_run_connection, history_run_total.
    - rewrite head_history_run. cbn.
      eapply history_run_connection, history_run_total.
    - split; [apply no_store_access|done].
    - split; [apply no_store_access|done].
    - split; [apply no_store_access|done]. }
  destruct H as [H1 H2]. split; [done|]. split; [done|].
  split; [apply get_db_opens|apply get_db_reuses].
Qed.

(** ** Startup, again and again *)

Lemma startup_writable e d :
  writable e ->
  startup e d = (Return (), Some (default empty_table d)).
Proof.
  intros [Hcf Hef]. unfold startup. unfold_handlers.
  rewrite Hcf, Hef. by destruct d.
Qed.

(** Once the table is there, [init_db] leaves the file as it is, even
    when it fails. *)
Lemma startup_table e t : (startup e (Some t)).2 = Some t.
Proof.
  unfold startup. unfold_handlers.
  by destruct (connect_fails e), (execute_fails e).
Qed.

Lemma startup_records e d : records (startup e d).2 = records d.
Proof.
  destruct d as [t|]; [by rewrite startup_table|].
  unfold startup. unfold_handlers.
  by destruct (connect_fails e), (execute_fails e).
Qed.

Lemma run_ops_outcomes d ops :
  Forall init_writable ops ->
  Forall (fun out => out = Return ()) (run_ops d ops).1.
Proof.
  intros H. revert d. induction H as [|[e|e req] ops Ho _ IH]; intros d; cbn.
  - constructor.
  - rewrite (startup_writable e d Ho).
    specialize (IH (Some (default empty_table d))).
    destruct (run_ops (Some (default empty_table d)) ops) as [outs d'].
    by constructor.
  - apply IH.
Qed.

Lemma run_ops_records d ops :
  records d `prefix_of` records (run_ops d ops).2.
Proof.
  revert d. induction ops as [|[e|e req] ops IH]; intros d; cbn; [done|..].
  - specialize (IH (startup e d).2). rewrite startup_records in IH.
    destruct (startup e d) as [out d']. cbn in IH.
    by destruct (run_ops d' ops).
  - etrans; [|apply IH].
    destruct (serve_records e req d) as [extra [-> _]].
    by apply prefix_app_r.
Qed.

Lemma run_ops_requests t ops :
  (run_ops (Some t) ops).2 = run (Some t) (requests_of ops).
Proof.
  revert t. induction ops as [|[e|e req] ops IH]; intros t; cbn; [done|..].
  - pose proof (startup_table e t) as Ht.
    destruct (startup e (Some t)) as [out d']. cbn in Ht. subst d'.
    specialize (IH t). by destruct (run_ops (Some t) ops).
  - destruct (serve_is_Some e req (Some t)) as [t' Ht']; [done|].
    rewrite Ht'. apply IH.
Qed.

(** C7: On a store that can be written, [init_db] returns, whatever is in
    the store, and calling it again changes nothing.  Wherever the
    startups stand among the requests, each of them returns, no record
    that was in the store is lost or changed, and once the table exists
    the store ends as it does without them. *)
Theorem init_db_idempotent (d : database) (ops : list op) (e : env) :
  writable e ->
  Forall init_writable ops ->
  (startup e d).1 = Return ()
  /\ is_Some (startup e d).2
  /\ records (startup e d).2 = records d
  /\ startup e (startup e d).2 = startup e d
  /\ Forall (fun out => out = Return ()) (run_ops d ops).1
  /\ records d `prefix_of` records (run_ops d ops).2
  /\ (run_ops (startup e d).2 ops).2
     = run (startup e d).2 (requests_of ops).
Proof.
  intros He Hops. rewrite (startup_writable e d He). cbn.
  repeat split.
  - done.
  - by destruct d.
  - by rewrite startup_writable.
  - by apply run_ops_outcomes.
  - apply run_ops_records.
  - apply run_ops_requests.
Qed.

Lemma init_db_idempotent_witness :
  (startup (echo_env 1) None).1 = Return ()
  /\ is_Some (startup (echo_env 1) None).2
  /\ records (startup (echo_env 1) None).2 = records None
  /\ startup (echo_env 1) (startup (echo_env 1) None).2
     = startup (echo_env 1) None
  /\ Forall (fun out => out = Return ())
       (run_ops None
          [OpInit (echo_env 1);
           OpServe (echo_env 2) (PostGenerate (prompt_body (py "a")));
           OpInit (echo_env 3);
           OpServe (echo_env 4) (PostGenerate (prompt_body (py "b")));
           OpInit (echo_env 5)]).1
  /\ records None `prefix_of`
       records (run_ops None
          [OpInit (echo_env 1);
           OpServe (echo_env 2) (PostGenerate (prompt_body (py "a")));
           OpInit (echo_env 3);
           OpServe (echo_env 4) (PostGenerate (prompt_body (py "b")));
           OpInit (echo_env 5)]).2
  /\ (run_ops (startup (echo_env 1) None).2
          [OpInit (echo_env 1);
           OpServe (echo_env 2) (PostGenerate (prompt_body (py "a")));
           OpInit (echo_env 3);
           OpServe (echo_env 4) (PostGenerate (prompt_body (py "b")));
           OpInit (echo_env 5)]).2
     = run (startup (echo_env 1) None).2
         (requests_of
            [OpInit (echo_env 1);
             OpServe (echo_env 2) (PostGenerate (prompt_body (py "a")));
             OpInit (echo_env 3);
             OpServe (echo_env 4) (PostGenerate (prompt_body (py "b")));
             OpInit (echo_env 5)]).
Proof.
  apply (init_db_idempotent None
           [OpInit (echo_env 1);
            OpServe (echo_env 2) (PostGenerate (prompt_body (py "a")));
            OpInit (echo_env 3);
            OpServe (echo_env 4) (PostGenerate (prompt_body (py "b")));
            OpInit (echo_env 5)] (echo_env 1)).
  - split; reflexivity.
  - repeat constructor.
Defined.

(** ** The order of GET /history *)

Lemma history_run_items e d args resp w items :
  history_run e d args resp w ->
  body resp = HistoryBody items ->
  exists limit offset t,
    d = Some t /\ items = to_entry <$> select_recent limit offset t.
Proof.
  intros H. destruct H as [| | |args limit offset t _ _ _ Hd _]; cbn;
    try done.
  intros [= <-]. by exists limit, offset, t.
Qed.

(** Within the seconds that can be rendered, the place of a time stamp
    in the order is its clock reading. *)
Lemma sort_key_current_timestamp now :
  (now <= stamp_max)%N -> sort_key (current_timestamp now) = Z.of_N now.
Proof.
  intros H. unfold current_timestamp.
  by rewrite (proj2 (N.leb_le now stamp_max) H).
Qed.

Lemma serve_in_order e req c t :
  in_order c t -> c <= Z.of_N (now e) -> (now e <= stamp_max)%N ->
  exists t',
    (serve e req (Some t)).2 = Some t' /\ in_order (Z.of_N (now e)) t'.
Proof.
  intros (Hi & Ht & Hc) Hle Hmax.
  destruct (serve_disk e req (Some t))
    as [->|(raw & t0 & t' & p & reply & _ & [= <-] & Hins & ->)].
  - exists t. split; [done|]. split; [done|]. split; [done|].
    eapply Forall_impl; [exact Hc|]. cbn. intros r Hr. lia.
  - exists t'. split; [done|]. split; [by eapply insert_row_ids_increase|].
    apply insert_row_inv in Hins as [-> _]. cbn. split.
    + apply StronglySorted_app_2; [|done|repeat constructor].
      intros a b Ha ->%list_elem_of_singleton. cbn.
      rewrite sort_key_current_timestamp by done.
      rewrite Forall_forall in Hc. specialize (Hc a Ha). lia.
    + apply Forall_app. split.
      * eapply Forall_impl; [exact Hc|]. cbn. intros r Hr. lia.
      * repeat constructor. cbn.
        rewrite sort_key_current_timestamp by done. lia.
Qed.

Lemma run_in_order reqs c t :
  in_order c t ->
  Forall (fun er => c <= Z.of_N (now er.1)) reqs ->
  clock_non_decreasing reqs ->
  clock_in_range reqs ->
  exists c' t', run (Some t) reqs = Some t' /\ in_order c' t'.
Proof.
  revert c t. induction reqs as [|[e req] reqs IH]; intros c t Ho Hc Hm Hr.
  - by exists c, t.
  - apply Forall_cons in Hc as [Hce _].
    apply Forall_cons in Hr as [Hre Hr].
    apply StronglySorted_inv in Hm as [Hm Hhd]. cbn in *.
    destruct (serve_in_order e req c t Ho Hce Hre) as (t' & -> & Ho').
    apply (IH (Z.of_N (now e)) t'); [done| |done..].
    eapply Forall_impl; [exact Hhd|]. cbn. intros er Her. lia.
Qed.

Lemma empty_table_in_order c : in_order c empty_table.
Proof. repeat split; cbn; constructor. Qed.

Lemma to_entry_listed_before a b :
  entry_listed_before (to_entry a) (to_entry b) <-> listed_before a b.
Proof. done. Qed.

(** With three rows in the store, [limit=2] gives the two newest and
    [limit=5&offset=5] gives none. *)
Example history_limit_two :
  body (serve (echo_env 10) (GetHistory [(py "limit", py "2");
                                         (py "offset", py "0")])
          three_rows).1
  = HistoryBody [Entry 3 (py "c") (py "z") (Stamp 7); Entry 2 (py "b") (py "y") (Stamp 5)].
Proof. vm_compute. reflexivity. Qed.

Example history_offset_past_the_end :
  body (serve (echo_env 10) (GetHistory [(py "limit", py "5");
                                         (py "offset", py "5")])
          three_rows).1
  = HistoryBody [].
Proof. vm_compute. reflexivity. Qed.

(** C3: The list of GET /history is in the order of
    datetime(created_at), newest first, and of id, largest first, where
    that is equal.  When the store's clock has not gone back between
    the requests that filled the store and has stayed within the
    seconds that SQLite renders as dates (to 9999-12-31 23:59:59), a
    record inserted after another stands before it in the list. *)
Theorem history_newest_first
    (e : env) (args : list (pystr * pystr)) (d : database)
    (items : list entry) :
  body (serve e (GetHistory args) d).1 = HistoryBody items ->
  StronglySorted entry_listed_before items
  /\ (forall reqs,
        d = run (Some empty_table) reqs ->
        clock_non_decreasing reqs ->
        clock_in_range reqs ->
        newest_inserted_first d items).
Proof.
  rewrite serve_run_request. cbn. intros Hb.
  destruct (history_run_items _ _ _ _ _ _ (history_run_total e args d) Hb)
    as (limit & offset & t & -> & ->).
  assert (Hs : StronglySorted entry_listed_before
                 (to_entry <$> select_recent limit offset t)).
  { eapply StronglySorted_fmap; [|apply select_recent_sorted].
    intros a b. by rewrite to_entry_listed_before. }
  split; [done|]. intros reqs Hd Hm Hr i j k l a b Hij Ha Hb' Hk Hl.
  destruct reqs as [|[e0 req0] reqs'].
  { cbn in Hd. injection Hd as ->. cbn in Ha. by rewrite lookup_nil in Ha. }
  destruct (run_in_order ((e0, req0) :: reqs') (Z.of_N (now e0))
              empty_table)
    as (c' & t' & Hrun & (Hids & _) & Htimes & _).
  { apply empty_table_in_order. }
  { apply StronglySorted_inv in Hm as [_ Hhd]. apply Forall_cons.
    split; [cbn; lia|].
    eapply Forall_impl; [exact Hhd|]. cbn. intros er Her. lia. }
  { done. }
  { done. }
  rewrite Hrun in Hd. injection Hd as ->. cbn in Ha, Hb'.
  pose proof (StronglySorted_lookup _ _ _ _ _ _ Hids Hij Ha Hb') as Hid.
  pose proof (StronglySorted_lookup _ _ _ _ _ _ Htimes Hij Ha Hb') as Htm.
  cbn in Hid, Htm.
  destruct (decide (l < k)%nat) as [|Hkl]; [done|exfalso].
  destruct (decide (k = l)) as [->|Hne].
  - assert (Hab : to_entry a = to_entry b) by congruence.
    apply (f_equal entry_id) in Hab. cbn in Hab. lia.
  - assert (Hlt : (k < l)%nat) by lia.
    pose proof (StronglySorted_lookup _ _ _ _ _ _ Hs Hlt Hk Hl) as Hab.
    unfold entry_listed_before in Hab. cbn in Hab. lia.
Qed.

Ltac clock_facts :=
  unfold clock_non_decreasing, clock_in_range, stamp_max;
  repeat first [ apply SSorted_nil | apply SSorted_cons
               | apply Forall_nil_2 | apply Forall_cons_2; [cbn; lia|] ].

Lemma history_newest_first_witness :
  StronglySorted entry_listed_before
    [Entry 3 (py "c") (py "ok") (Stamp 12); Entry 2 (py "b") (py "ok") (Stamp 10);
     Entry 1 (py "a") (py "ok") (Stamp 10)]
  /\ newest_inserted_first
       (run (Some empty_table)
          [(echo_env 10, PostGenerate (prompt_body (py "a")));
           (echo_env 10, PostGenerate (prompt_body (py "b")));
           (echo_env 12, PostGenerate (prompt_body (py "c")))])
       [Entry 3 (py "c") (py "ok") (Stamp 12); Entry 2 (py "b") (py "ok") (Stamp 10);
        Entry 1 (py "a") (py "ok") (Stamp 10)].
Proof.
  pose proof (history_newest_first (echo_env 20) []
    (run (Some empty_table)
       [(echo_env 10, PostGenerate (prompt_body (py "a")));
        (echo_env 10, PostGenerate (prompt_body (py "b")));
        (echo_env 12, PostGenerate (prompt_body (py "c")))])
    [Entry 3 (py "c") (py "ok") (Stamp 12); Entry 2 (py "b") (py "ok") (Stamp 10);
     Entry 1 (py "a") (py "ok") (Stamp 10)]) as H.
  destruct H as [Hs Hn]; [vm_compute; reflexivity|].
  split; [exact Hs|]. eapply Hn; [reflexivity|clock_facts..].
Defined.

(** The clock went back between two inserts: the record inserted first
    is listed first. *)
Lemma insertion_order_needs_the_clock :
  ~ (forall reqs e args items,
       body (serve e (GetHistory args) (run (Some empty_table) reqs)).1
       = HistoryBody items ->
       newest_inserted_first (run (Some empty_table) reqs) items).
Proof.
  intros H.
  specialize (H [(echo_env 10, PostGenerate (prompt_body (py "a")));
                 (echo_env 5, PostGenerate (prompt_body (py "b")))]
                (echo_env 20) []
                [Entry 1 (py "a") (py "ok") (Stamp 10); Entry 2 (py "b") (py "ok") (Stamp 5)]).
  assert (Hl : (1 < 0)%nat); [|lia].
  apply (H ltac:(vm_compute; reflexivity) 0%nat 1%nat 0%nat 1%nat
           (Row 1 (py "a") (py "ok") (Stamp 10)) (Row 2 (py "b") (py "ok") (Stamp 5)));
    [lia|vm_compute; reflexivity..].
Qed.

(** A clock that runs on past the last second that can be rendered:
    the second record is stored with the text of zeros, whose
    [datetime] is NULL, and is listed after the first. *)
Example history_clock_past_year_9999 :
  serve (echo_env 253402300801) (GetHistory [])
    (run (Some empty_table)
       [(echo_env 10, PostGenerate (prompt_body (py "a")));
        (echo_env 253402300800, PostGenerate (prompt_body (py "b")))])
  = ({| status := 200;
        body := HistoryBody [Entry 1 (py "a") (py "ok") (Stamp 10);
                             Entry 2 (py "b") (py "ok") ZeroStamp] |},
     Some {| rows := [Row 1 (py "a") (py "ok") (Stamp 10);
                      Row 2 (py "b") (py "ok") ZeroStamp];
             seq := 2 |}).
Proof. vm_compute. reflexivity. Qed.

(** The requests that reach no view function: an OPTIONS is answered
    200 by the framework, another method on one of the two paths 405,
    another path 404; none of them comes to the store. *)
Example requests_without_a_view :
  (run_request (echo_env 10) Options three_rows,
   run_request (echo_env 10) WrongMethod three_rows,
   run_request (echo_env 10) OtherRoute three_rows)
  = (({| status := 200; body := EmptyBody |},
      {| disk := three_rows; g_db := None; trace := [] |}),
     (handle_exception MethodNotAllowed,
      {| disk := three_rows; g_db := None; trace := [] |}),
     (handle_exception NotFound,
      {| disk := three_rows; g_db := None; trace := [] |})).
Proof. reflexivity. Qed.

(** * Further properties *)

(** ** More on stripping *)

Section StripMore.
Variable ws : N -> bool.

Lemma lstrip_with_fixed s :
  (forall c, head s = Some c -> ws c = false) ->
  PyStr.lstrip_with ws s = s.
Proof.
  destruct s as [|c s]; [done|]. intros H. cbn. by rewrite (H c).
Qed.

Lemma rstrip_with_fixed s :
  (forall c, last s = Some c -> ws c = false) ->
  PyStr.rstrip_with ws s = s.
Proof.
  intros H. unfold PyStr.rstrip_with. rewrite lstrip_with_fixed.
  - apply reverse_involutive.
  - intros c. rewrite head_reverse. apply H.
Qed.

Lemma strip_with_idemp s :
  PyStr.strip_with ws (PyStr.strip_with ws s) = PyStr.strip_with ws s.
Proof.
  destruct (strip_with_spec ws s) as (l & r & _ & _ & _ & Hh & Hl).
  unfold PyStr.strip_with at 1.
  rewrite lstrip_with_fixed; [|done]. by apply rstrip_with_fixed.
Qed.

Lemma strip_with_all_space s :
  forallb ws s = true -> PyStr.strip_with ws s = [].
Proof.
  intros H. unfold PyStr.strip_with.
  assert (Hl : PyStr.lstrip_with ws s = []).
  { induction s as [|c s IH]; [done|]. cbn in *.
    apply andb_true_iff in H as [-> H]. by apply IH. }
  by rewrite Hl.
Qed.
End StripMore.

Lemma strip_idemp s : PyStr.strip (PyStr.strip s) = PyStr.strip s.
Proof. apply strip_with_idemp. Qed.

Lemma strip_all_space s :
  forallb PyStr.isspace s = true -> PyStr.strip s = [].
Proof. apply strip_with_all_space. Qed.

(** ** More on POST /generate *)

(** The run that answers 200, with all that it needs. *)
Lemma generate_run_200_needs e d raw resp w :
  generate_run e d raw resp w ->
  status resp = 200 ->
  exists fields s reply t,
    raw = Some (JDict fields)
    /\ default (JStr []) (fields !! py "prompt") = JStr s
    /\ complete e (PyStr.strip s) = Some reply
    /\ connect_fails e = false
    /\ execute_fails e = false
    /\ commit_fails e = false
    /\ d = Some t
    /\ utf8_encodable (PyStr.strip s) && utf8_encodable reply = true
    /\ largest_id t < int64_max.
Proof.
  intros H Hs.
  destruct H as [ | | | | | |fields s reply t t' Hv Hc Hcf Hef Hmf Hd Hu Hi];
    try (by apply handle_exception_not_200 in Hs).
  apply insert_row_inv in Hi as [_ Hi].
  by exists fields, s, reply, t.
Qed.

(** The runs in which the oracle has answered and the answer is not
    200. *)
Lemma generate_run_reply_lost e d raw resp w fields s reply :
  generate_run e d raw resp w ->
  raw = Some (JDict fields) ->
  default (JStr []) (fields !! py "prompt") = JStr s ->
  complete e (PyStr.strip s) = Some reply ->
  status resp <> 200 ->
  disk w = d
  /\ (resp = handle_exception OperationalError
      \/ resp = handle_exception UnicodeEncodeError)
  /\ head (trace w) = Some (EvOracle (PyStr.strip s)).
Proof.
  intros H.
  destruct H as [ |data Hd|fields' Hv'|fields' s' Hv' Hc'
                 |fields' s' reply' Hv' _ _
                 |fields' s' reply' x tr Hv' _ _ Hx _
                 |fields' s' reply' t t' Hv' _ _ _ _ _ _ _];
    intros [= ->] Hv Hc Hs; try (by destruct (Hd fields));
    try (by destruct (Hv' s));
    rewrite Hv in Hv'; injection Hv' as <-; cbn; try done.
  - congruence.
  - auto.
  - by destruct Hx as [-> | ->]; auto.
Qed.

Lemma complete_stripped e p reply :
  complete e p = Some reply -> exists decoded, reply = PyStr.strip decoded.
Proof.
  unfold complete. intros H.
  destruct (apply_chat_template e p) as [text|]; [|done]. cbn in H.
  destruct (tokenize e text) as [inputs|]; [|done]. cbn in H.
  destruct (model_generate e inputs) as [output_ids|]; [|done]. cbn in H.
  destruct (decode e (drop (length inputs) output_ids)) as [decoded|];
    [|done].
  cbn in H. injection H as <-. by exists decoded.
Qed.

(** X1: A POST /generate whose body is JSON but not an object (a list,
    a string, a number, true, false or null) is answered 500: the
    oracle and the store are not called and the store stays as it
    was. *)
Theorem generate_rejects_non_object_body
    (e : env) (data : json) (d : database) :
  is_dict data = false ->
  serve e (PostGenerate (Some data)) d = (handle_exception AttributeError, d)
  /\ calls e (PostGenerate (Some data)) d = [].
Proof. by destruct data. Qed.

Lemma generate_rejects_non_object_body_witness :
  serve (echo_env 10) (PostGenerate (Some (JList [JStr (py "hi")])))
    three_rows
  = (handle_exception AttributeError, three_rows)
  /\ calls (echo_env 10) (PostGenerate (Some (JList [JStr (py "hi")])))
       three_rows = [].
Proof.
  apply (generate_rejects_non_object_body (echo_env 10)
           (JList [JStr (py "hi")]) three_rows).
  reflexivity.
Defined.

(** X2: A POST /generate whose prompt is a string (or is missing) is
    answered 200 exactly when the oracle answers, the store can be
    opened, written and committed, the table exists, prompt and reply
    can be encoded as UTF-8, and the ids of the table are not used
    up. *)
Theorem generate_answers_200_iff
    (e : env) (fields : gmap pystr json) (s : pystr) (d : database) :
  default (JStr []) (fields !! py "prompt") = JStr s ->
  status (serve e (PostGenerate (Some (JDict fields))) d).1 = 200
  <-> exists reply t,
        complete e (PyStr.strip s) = Some reply
        /\ connect_fails e = false
        /\ execute_fails e = false
        /\ commit_fails e = false
        /\ d = Some t
        /\ utf8_encodable (PyStr.strip s) && utf8_encodable reply = true
        /\ largest_id t < int64_max.
Proof.
  intros Hv. split.
  - rewrite serve_run_request. cbn. intros Hs.
    pose proof (generate_run_total e (Some (JDict fields)) d) as H.
    destruct (generate_run_200_needs _ _ _ _ _ H Hs)
      as (fields' & s' & reply & t & [= <-] & Hv' & Hrest).
    rewrite Hv in Hv'. injection Hv' as <-. by exists reply, t.
  - intros (reply & t & Hc & Hcf & Hef & Hmf & -> & Hu & Hl).
    by eapply generate_succeeds.
Qed.

Lemma generate_answers_200_iff_witness :
  status (serve (echo_env 10) (PostGenerate (prompt_body (py " hi ")))
            three_rows).1 = 200
  <-> exists reply t,
        complete (echo_env 10) (PyStr.strip (py " hi ")) = Some reply
        /\ connect_fails (echo_env 10) = false
        /\ execute_fails (echo_env 10) = false
        /\ commit_fails (echo_env 10) = false
        /\ three_rows = Some t
        /\ utf8_encodable (PyStr.strip (py " hi ")) && utf8_encodable reply
           = true
        /\ largest_id t < int64_max.
Proof.
  apply (generate_answers_200_iff (echo_env 10)
           {[ py "prompt" := JStr (py " hi ") ]} (py " hi ") three_rows).
  vm_compute. reflexivity.
Defined.

(** X3: When the oracle has answered and the store then fails (it
    cannot be opened, the INSERT raises or the commit raises), the
    request is answered 500 with the exception and not with the reply,
    and the store stays as it was: the text the oracle gave is lost. *)
Theorem generate_reply_lost_when_store_fails
    (e : env) (fields : gmap pystr json) (s reply : pystr) (d : database) :
  default (JStr []) (fields !! py "prompt") = JStr s ->
  complete e (PyStr.strip s) = Some reply ->
  status (serve e (PostGenerate (Some (JDict fields))) d).1 <> 200 ->
  (serve e (PostGenerate (Some (JDict fields))) d).2 = d
  /\ status (serve e (PostGenerate (Some (JDict fields))) d).1 = 500
  /\ reply_of (serve e (PostGenerate (Some (JDict fields))) d).1 = None
  /\ head (calls e (PostGenerate (Some (JDict fields))) d)
     = Some (EvOracle (PyStr.strip s)).
Proof.
  intros Hv Hc. unfold calls. rewrite serve_run_request. cbn. intros Hs.
  pose proof (generate_run_total e (Some (JDict fields)) d) as H.
  destruct (generate_run_reply_lost _ _ _ _ _ _ _ _ H eq_refl Hv Hc Hs)
    as (Hd & Hr & Ht).
  split; [done|]. split; [|split; [|done]]; by destruct Hr as [-> | ->].
Qed.

Lemma generate_reply_lost_when_store_fails_witness :
  (serve (no_commit_env 10) (PostGenerate (prompt_body (py " hi ")))
     three_rows).2 = three_rows
  /\ status (serve (no_commit_env 10)
               (PostGenerate (prompt_body (py " hi "))) three_rows).1 = 500
  /\ reply_of (serve (no_commit_env 10)
                 (PostGenerate (prompt_body (py " hi "))) three_rows).1
     = None
  /\ head (calls (no_commit_env 10)
             (PostGenerate (prompt_body (py " hi "))) three_rows)
     = Some (EvOracle (PyStr.strip (py " hi "))).
Proof.
  apply (generate_reply_lost_when_store_fails (no_commit_env 10)
           {[ py "prompt" := JStr (py " hi ") ]} (py " hi ") (py "ok")
           three_rows).
  - vm_compute. reflexivity.
  - vm_compute. reflexivity.
  - vm_compute. discriminate.
Defined.

(** X4: The reply of a POST /generate that is answered 200 has no white
    space at its beginning or its end, and it is the response of the
    last record of the store. *)
Theorem generate_reply_is_stripped
    (e : env) (raw : option json) (d : database) :
  status (serve e (PostGenerate raw) d).1 = 200 ->
  exists reply r,
    body (serve e (PostGenerate raw) d).1 = ReplyBody reply
    /\ (forall c, head reply = Some c -> PyStr.isspace c = false)
    /\ (forall c, last reply = Some c -> PyStr.isspace c = false)
    /\ last (records (serve e (PostGenerate raw) d).2) = Some r
    /\ row_response r = reply.
Proof.
  rewrite serve_run_request. cbn. intros Hs.
  pose proof (generate_run_total e raw d) as H.
  destruct (generate_run_200 _ _ _ _ _ H Hs)
    as (fields & s & reply & t & t' & _ & _ & Hc & _ & Hi & -> & -> & _).
  apply insert_row_inv in Hi as [-> _].
  destruct (complete_stripped e _ _ Hc) as [decoded ->].
  destruct (strip_with_spec PyStr.isspace decoded)
    as (l & r & _ & _ & _ & Hh & Hl).
  eexists _, _. cbn. split; [done|]. split; [exact Hh|].
  split; [exact Hl|]. split; [apply last_snoc|done].
Qed.

Lemma generate_reply_is_stripped_witness :
  exists reply r,
    body (serve (echo_env 10) (PostGenerate (prompt_body (py " hi ")))
            three_rows).1 = ReplyBody reply
    /\ (forall c, head reply = Some c -> PyStr.isspace c = false)
    /\ (forall c, last reply = Some c -> PyStr.isspace c = false)
    /\ last (records (serve (echo_env 10)
                        (PostGenerate (prompt_body (py " hi ")))
                        three_rows).2) = Some r
    /\ row_response r = reply.
Proof.
  apply (generate_reply_is_stripped (echo_env 10)
           (prompt_body (py " hi ")) three_rows).
  vm_compute. reflexivity.
Defined.

(** X5: White space around the prompt makes no difference: a request
    with prompt [P] runs as the request with prompt [strip P], with the
    same calls, the same response and the same store afterwards. *)
Theorem generate_ignores_space_around_prompt
    (e : env) (fields : gmap pystr json) (P : pystr) (d : database) :
  fields !! py "prompt" = Some (JStr P) ->
  run_request e (PostGenerate (Some (JDict fields))) d
  = run_request e
      (PostGenerate
         (Some (JDict (<[py "prompt" := JStr (PyStr.strip P)]> fields)))) d.
Proof.
  intros HP. unfold_handlers; cbn. rewrite HP, lookup_insert_eq; cbn.
  by rewrite strip_idemp.
Qed.

Lemma generate_ignores_space_around_prompt_witness :
  run_request (echo_env 10) (PostGenerate (prompt_body (py "  hi "))) three_rows
  = run_request (echo_env 10)
      (PostGenerate
         (Some (JDict (<[py "prompt" := JStr (PyStr.strip (py "  hi "))]>
                         {[ py "prompt" := JStr (py "  hi ") ]})))) three_rows.
Proof.
  apply (generate_ignores_space_around_prompt (echo_env 10)
           {[ py "prompt" := JStr (py "  hi ") ]} (py "  hi ") three_rows).
  vm_compute. reflexivity.
Defined.

(** X6: A prompt of white space only is served as a missing prompt:
    the request runs as the request without the [prompt] field, with
    the empty prompt for the oracle. *)
Theorem generate_blank_prompt_is_missing_prompt
    (e : env) (fields : gmap pystr json) (P : pystr) (d : database) :
  fields !! py "prompt" = Some (JStr P) ->
  forallb PyStr.isspace P = true ->
  run_request e (PostGenerate (Some (JDict fields))) d
  = run_request e
      (PostGenerate (Some (JDict (delete (py "prompt") fields)))) d
  /\ head (calls e (PostGenerate (Some (JDict fields))) d)
     = Some (EvOracle []).
Proof.
  intros HP Hw. unfold_handlers; cbn. rewrite HP, lookup_delete_eq; cbn.
  rewrite (strip_all_space P Hw).
  change (PyStr.strip []) with (@nil N).
  split; [done|].
  destruct (complete e []) as [reply|]; cbn; [|done].
  destruct (connect_fails e); cbn; [done|].
  destruct d as [t|]; cbn; [|done].
  destruct (utf8_encodable [] && utf8_encodable reply); cbn; [|done].
  destruct (execute_fails e); cbn; [done|].
  destruct (insert_row (now e) [] reply t); cbn; [|done].
  by destruct (commit_fails e).
Qed.

Lemma generate_blank_prompt_is_missing_prompt_witness :
  run_request (echo_env 10)
    (PostGenerate (prompt_body [0x20; 0x09; 0x0A; 0x3000]%N)) three_rows
  = run_request (echo_env 10)
      (PostGenerate
         (Some (JDict (delete (py "prompt")
                  {[ py "prompt" := JStr [0x20; 0x09; 0x0A; 0x3000]%N ]}))))
      three_rows
  /\ head (calls (echo_env 10)
             (PostGenerate (prompt_body [0x20; 0x09; 0x0A; 0x3000]%N))
             three_rows)
     = Some (EvOracle []).
Proof.
  apply (generate_blank_prompt_is_missing_prompt (echo_env 10)
           {[ py "prompt" := JStr [0x20; 0x09; 0x0A; 0x3000]%N ]}
           [0x20; 0x09; 0x0A; 0x3000]%N three_rows).
  - vm_compute. reflexivity.
  - vm_compute. reflexivity.
Defined.

(** ** More on GET /history *)

(** The run that answers with a list, with all that it needs. *)
Lemma history_run_items_paging e d args resp w items :
  history_run e d args resp w ->
  body resp = HistoryBody items ->
  exists limit offset t,
    parse_paging args = Some (limit, offset)
    /\ d = Some t
    /\ items = to_entry <$> select_recent limit offset t.
Proof.
  intros H. destruct H as [| | |args limit offset t Hp _ _ Hd _]; cbn;
    try done.
  intros [= <-]. by exists limit, offset, t.
Qed.

Lemma serve_history_items e args d items :
  body (serve e (GetHistory args) d).1 = HistoryBody items ->
  exists limit offset t,
    parse_paging args = Some (limit, offset)
    /\ d = Some t
    /\ items = to_entry <$> select_recent limit offset t.
Proof.
  rewrite serve_run_request. cbn. intros H.
  eapply history_run_items_paging; [apply history_run_total|done].
Qed.

Lemma history_run_200 e d args resp w :
  history_run e d args resp w ->
  status resp = 200 ->
  exists items, body resp = HistoryBody items.
Proof.
  intros H Hs. destruct H as [| |? ? ? x _ _ Hx|]; cbn in *; try done.
  - by destruct Hx as [-> | ->].
  - by eexists.
Qed.

Lemma select_recent_submseteq limit offset t :
  select_recent limit offset t ⊆+ rows t.
Proof.
  unfold select_recent, limit_offset.
  etrans; [|apply Permutation_submseteq,
              (merge_sort_Permutation listed_before)].
  apply sublist_submseteq.
  destruct (limit <? 0).
  - apply sublist_drop.
  - etrans; [apply sublist_take|apply sublist_drop].
Qed.

Lemma select_recent_length limit offset t :
  0 <= limit ->
  (length (select_recent limit offset t) <= Z.to_nat limit)%nat.
Proof.
  intros Hl. unfold select_recent, limit_offset.
  destruct (limit <? 0) eqn:H; [apply Z.ltb_lt in H; lia|].
  rewrite length_take. lia.
Qed.

Lemma limit_offset_app {A} (l1 l2 o : Z) (L : list A) :
  0 <= l1 -> 0 <= l2 -> 0 <= o ->
  limit_offset l1 o L ++ limit_offset l2 (o + l1) L
  = limit_offset (l1 + l2) o L.
Proof.
  intros H1 H2 Ho. unfold limit_offset.
  destruct (l1 <? 0) eqn:E1; [apply Z.ltb_lt in E1; lia|].
  destruct (l2 <? 0) eqn:E2; [apply Z.ltb_lt in E2; lia|].
  destruct (l1 + l2 <? 0) eqn:E3; [apply Z.ltb_lt in E3; lia|].
  rewrite !Z2Nat.inj_add by lia. rewrite <- drop_drop.
  apply take_take_drop.
Qed.

Lemma limit_offset_all {A} (limit offset : Z) (L : list A) :
  offset <= 0 -> limit < 0 \/ Z.of_nat (length L) <= limit ->
  limit_offset limit offset L = L.
Proof.
  intros Ho Hl. unfold limit_offset.
  replace (Z.to_nat offset) with 0%nat by lia. rewrite drop_0.
  destruct (limit <? 0) eqn:E; [done|]. apply Z.ltb_ge in E.
  apply take_ge. lia.
Qed.

Lemma limit_offset_nil {A} (limit offset : Z) (L : list A) :
  limit = 0 \/ Z.of_nat (length L) <= offset ->
  limit_offset limit offset L = [].
Proof.
  intros [->|Ho]; unfold limit_offset.
  - cbn. apply take_0.
  - rewrite drop_ge by lia. destruct (limit <? 0); [done|apply take_nil].
Qed.

Lemma history_run_calls e d args resp w ev :
  history_run e d args resp w ->
  ev ∈ trace w ->
  ev = EvConnect \/ ev = EvConnectFailed \/ ev = EvClose
  \/ exists limit offset, ev = EvExecute (Select limit offset).
Proof.
  intros H. destruct H; cbn; intros Hev;
    repeat (apply elem_of_cons in Hev as [->|Hev]; [by eauto 6|]);
    by apply elem_of_nil in Hev.
Qed.

(** X7: GET /history is answered 400 exactly when [limit] or [offset]
    is not the text of an integer, and 200 exactly when both are, fit
    in 64 bits, the store can be opened and read and the table exists;
    every other request is answered 500. *)
Theorem history_answers
    (e : env) (args : list (pystr * pystr)) (d : database) :
  (status (serve e (GetHistory args) d).1 = 400
   <-> parse_paging args = None)
  /\ (status (serve e (GetHistory args) d).1 = 200
      <-> exists limit offset t,
            parse_paging args = Some (limit, offset)
            /\ connect_fails e = false
            /\ execute_fails e = false
            /\ d = Some t
            /\ fits_int64 limit && fits_int64 offset = true)
  /\ (status (serve e (GetHistory args) d).1 = 200
      \/ status (serve e (GetHistory args) d).1 = 400
      \/ status (serve e (GetHistory args) d).1 = 500).
Proof.
  unfold_handlers; cbn.
  destruct (parse_paging args) as [[limit offset]|] eqn:Hp; cbn.
  2: { split; [done|]. split; [|auto]. split; [done|].
       by intros (? & ? & ? & ? & _). }
  assert (Hfail : forall P : Prop,
    ~ P ->
    (500 = 400 <-> Some (limit, offset) = @None (Z * Z))
    /\ (500 = 200 <-> P) /\ (500 = 200 \/ 500 = 400 \/ 500 = 500)).
  { intros P HP. split; [done|]. split; [|auto]. split; [done|].
    intros H. by destruct HP. }
  destruct (connect_fails e) eqn:Hcf; cbn.
  { apply Hfail. intros (? & ? & ? & _ & ? & _). congruence. }
  destruct d as [t|]; cbn.
  2: { apply Hfail. intros (? & ? & ? & _ & _ & _ & ? & _). congruence. }
  destruct (fits_int64 limit && fits_int64 offset) eqn:Hf; cbn.
  2: { apply Hfail. intros (? & ? & ? & ? & _ & _ & _ & ?). congruence. }
  destruct (execute_fails e) eqn:Hef; cbn.
  { apply Hfail. intros (? & ? & ? & _ & _ & ? & _). congruence. }
  split; [done|]. split; [|auto]. split; [|done].
  intros _. by exists limit, offset, t.
Qed.

(** X8: The list of GET /history holds records of the store and
    nothing else, none more often than the store holds it, and no more
    of them than a limit that is not negative. *)
Theorem history_lists_records_of_the_store
    (e : env) (args : list (pystr * pystr)) (d : database)
    (items : list entry) :
  body (serve e (GetHistory args) d).1 = HistoryBody items ->
  items ⊆+ (to_entry <$> records d)
  /\ (forall x, x ∈ items -> exists r, r ∈ records d /\ x = to_entry r)
  /\ (forall limit offset,
        parse_paging args = Some (limit, offset) ->
        0 <= limit ->
        (length items <= Z.to_nat limit)%nat).
Proof.
  intros (limit & offset & t & Hp & -> & ->)%serve_history_items. cbn.
  split; [|split].
  - apply fmap_submseteq, select_recent_submseteq.
  - intros x (r & -> & Hr)%list_elem_of_fmap. exists r. split; [|done].
    by eapply select_recent_elem_of.
  - intros limit' offset' Hp' Hl. rewrite Hp in Hp'. injection Hp' as <- <-.
    rewrite length_fmap. by apply select_recent_length.
Qed.

Lemma history_lists_records_of_the_store_witness :
  [Entry 3 (py "c") (py "z") (Stamp 7); Entry 2 (py "b") (py "y") (Stamp 5)]
    ⊆+ (to_entry <$> records three_rows)
  /\ (forall x,
        x ∈ [Entry 3 (py "c") (py "z") (Stamp 7); Entry 2 (py "b") (py "y") (Stamp 5)] ->
        exists r, r ∈ records three_rows /\ x = to_entry r)
  /\ (forall limit offset,
        parse_paging [(py "limit", py "2")] = Some (limit, offset) ->
        0 <= limit ->
        (length [Entry 3 (py "c") (py "z") (Stamp 7); Entry 2 (py "b") (py "y") (Stamp 5)]
         <= Z.to_nat limit)%nat).
Proof.
  apply (history_lists_records_of_the_store (echo_env 10)
           [(py "limit", py "2")] three_rows).
  vm_compute. reflexivity.
Defined.

(** X9: Pages fit together: the page of [l1] records from offset [o]
    followed by the page of [l2] records from offset [o + l1] is the
    page of [l1 + l2] records from offset [o], when none of the three
    numbers is negative. *)
Theorem history_pages_fit_together
    (e1 e2 e3 : env) (args1 args2 args3 : list (pystr * pystr))
    (d : database) (l1 l2 o : Z) (items1 items2 items3 : list entry) :
  0 <= l1 -> 0 <= l2 -> 0 <= o ->
  parse_paging args1 = Some (l1, o) ->
  parse_paging args2 = Some (l2, o + l1) ->
  parse_paging args3 = Some (l1 + l2, o) ->
  body (serve e1 (GetHistory args1) d).1 = HistoryBody items1 ->
  body (serve e2 (GetHistory args2) d).1 = HistoryBody items2 ->
  body (serve e3 (GetHistory args3) d).1 = HistoryBody items3 ->
  items3 = items1 ++ items2.
Proof.
  intros H1 H2 Ho Hp1 Hp2 Hp3.
  intros (? & ? & t & Hq1 & -> & ->)%serve_history_items.
  intros (? & ? & t2 & Hq2 & [= <-] & ->)%serve_history_items.
  intros (? & ? & t3 & Hq3 & [= <-] & ->)%serve_history_items.
  rewrite Hp1 in Hq1. rewrite Hp2 in Hq2. rewrite Hp3 in Hq3.
  injection Hq1 as <- <-. injection Hq2 as <- <-. injection Hq3 as <- <-.
  unfold select_recent. rewrite <- fmap_app. f_equal.
  symmetry. by apply limit_offset_app.
Qed.

Lemma history_pages_fit_together_witness :
  [Entry 3 (py "c") (py "z") (Stamp 7); Entry 2 (py "b") (py "y") (Stamp 5);
   Entry 1 (py "a") (py "x") (Stamp 5)]
  = [Entry 3 (py "c") (py "z") (Stamp 7)]
    ++ [Entry 2 (py "b") (py "y") (Stamp 5); Entry 1 (py "a") (py "x") (Stamp 5)].
Proof.
  apply (history_pages_fit_together (echo_env 10) (echo_env 11) (echo_env 12)
           [(py "limit", py "1")]
           [(py "limit", py "2"); (py "offset", py "1")]
           [(py "limit", py "3")]
           three_rows 1 2 0); try lia; vm_compute; reflexivity.
Defined.

(** X10: With an offset that is not positive and a limit that is
    negative or not below the number of records, the list of
    GET /history holds every record of the store exactly once. *)
Theorem history_lists_everything
    (e : env) (args : list (pystr * pystr)) (d : database)
    (limit offset : Z) (items : list entry) :
  parse_paging args = Some (limit, offset) ->
  offset <= 0 ->
  limit < 0 \/ Z.of_nat (length (records d)) <= limit ->
  body (serve e (GetHistory args) d).1 = HistoryBody items ->
  items ≡ₚ to_entry <$> records d.
Proof.
  intros Hp Ho Hl (? & ? & t & Hq & -> & ->)%serve_history_items.
  rewrite Hp in Hq. injection Hq as <- <-. cbn in *.
  unfold select_recent. rewrite limit_offset_all; [|done|].
  - by rewrite merge_sort_Permutation.
  - by rewrite merge_sort_Permutation.
Qed.

Lemma history_lists_everything_witness :
  [Entry 3 (py "c") (py "z") (Stamp 7); Entry 2 (py "b") (py "y") (Stamp 5);
   Entry 1 (py "a") (py "x") (Stamp 5)]
  ≡ₚ to_entry <$> records three_rows.
Proof.
  apply (history_lists_everything (echo_env 10)
           [(py "limit", py "-7"); (py "offset", py "-2")] three_rows
           (-7) (-2)).
  - vm_compute. reflexivity.
  - lia.
  - left. lia.
  - vm_compute. reflexivity.
Defined.

(** X11: With the limit 0, or an offset that is not below the number
    of records, a GET /history that is answered 200 is answered with
    the empty list. *)
Theorem history_page_past_the_end_is_empty
    (e : env) (args : list (pystr * pystr)) (d : database)
    (limit offset : Z) :
  parse_paging args = Some (limit, offset) ->
  limit = 0 \/ Z.of_nat (length (records d)) <= offset ->
  status (serve e (GetHistory args) d).1 = 200 ->
  body (serve e (GetHistory args) d).1 = HistoryBody [].
Proof.
  intros Hp Hl Hs.
  assert (Hi : exists items,
    body (serve e (GetHistory args) d).1 = HistoryBody items).
  { rewrite serve_run_request in *. cbn in *.
    eapply history_run_200; [apply history_run_total|done]. }
  destruct Hi as [items Hi]. rewrite Hi. f_equal.
  apply serve_history_items in Hi as (? & ? & t & Hq & -> & ->).
  rewrite Hp in Hq. injection Hq as <- <-. cbn in *.
  unfold select_recent. rewrite limit_offset_nil; [done|].
  by rewrite merge_sort_Permutation.
Qed.

Lemma history_page_past_the_end_is_empty_witness :
  body (serve (echo_env 10)
          (GetHistory [(py "limit", py "5"); (py "offset", py "3")])
          three_rows).1
  = HistoryBody [].
Proof.
  apply (history_page_past_the_end_is_empty (echo_env 10)
    [(py "limit", py "5"); (py "offset", py "3")] three_rows 5 3).
  - vm_compute. reflexivity.
  - right. cbn. lia.
  - vm_compute. reflexivity.
Defined.

(** X12: GET /history reads and does nothing else: it never calls the
    oracle, and on the store it opens its connection, runs its SELECT
    and closes; it runs no INSERT and no CREATE TABLE and commits
    nothing. *)
Theorem history_only_reads
    (e : env) (args : list (pystr * pystr)) (d : database) (ev : event) :
  ev ∈ calls e (GetHistory args) d ->
  ev = EvConnect \/ ev = EvConnectFailed \/ ev = EvClose
  \/ exists limit offset, ev = EvExecute (Select limit offset).
Proof.
  unfold calls. eapply history_run_calls, history_run_total.
Qed.

Lemma history_only_reads_witness :
  EvExecute (Select 2 0) = EvConnect
  \/ EvExecute (Select 2 0) = EvConnectFailed
  \/ EvExecute (Select 2 0) = EvClose
  \/ exists limit offset,
       EvExecute (Select 2 0) = EvExecute (Select limit offset).
Proof.
  apply (history_only_reads (echo_env 10) [(py "limit", py "2")]
           three_rows).
  vm_compute. apply elem_of_cons. right. apply elem_of_cons. by left.
Defined.

(** ** The ids of the records *)

Lemma max_id_cons r r' rs :
  max_id (r :: r' :: rs) = Z.max (row_id r) (max_id (r' :: rs)).
Proof. done. Qed.

Lemma max_id_le rs m :
  0 <= m -> Forall (fun r => row_id r <= m) rs -> max_id rs <= m.
Proof.
  intros Hm. induction 1 as [|r rs Hr _ IH]; [done|].
  destruct rs as [|r' rs]; [done|]. rewrite max_id_cons. lia.
Qed.

(** The largest id of rows is the id of one of them. *)
Lemma max_id_elem rs :
  rs <> [] -> exists r, r ∈ rs /\ row_id r = max_id rs.
Proof.
  induction rs as [|r rs IH]; [done|]. intros _.
  destruct rs as [|r' rs].
  - exists r. split; [apply elem_of_cons; by left|done].
  - destruct IH as (r0 & Hr0 & Hm); [done|]. rewrite max_id_cons.
    destruct (Z.max_spec (row_id r) (max_id (r' :: rs))) as [[_ ->]|[_ ->]].
    + exists r0. split; [apply elem_of_cons; by right|done].
    + exists r. split; [apply elem_of_cons; by left|done].
Qed.

Lemma numbered_largest_id t :
  numbered t -> largest_id t = Z.of_nat (length (rows t)).
Proof.
  intros [Hids Hseq]. unfold largest_id. rewrite Hseq.
  assert (max_id (rows t) <= Z.of_nat (length (rows t))); [|lia].
  apply max_id_le; [lia|]. apply Forall_forall. intros r Hr.
  assert (Hin : row_id r ∈ row_id <$> rows t).
  { apply list_elem_of_fmap. by exists r. }
  rewrite Hids in Hin.
  apply list_elem_of_fmap in Hin as (k & -> & Hk).
  apply elem_of_seq in Hk. lia.
Qed.

Lemma insert_row_numbered now p reply t t' :
  numbered t -> insert_row now p reply t = Some t' -> numbered t'.
Proof.
  intros Hn [-> _]%insert_row_inv.
  rewrite (numbered_largest_id t Hn). destruct Hn as [Hids Hseq].
  split; cbn.
  - rewrite fmap_app, length_app, List.seq_app, fmap_app, Hids. cbn.
    do 3 f_equal. lia.
  - rewrite length_app. cbn. lia.
Qed.

Lemma serve_numbered e req t :
  numbered t ->
  exists t', (serve e req (Some t)).2 = Some t' /\ numbered t'.
Proof.
  intros Hn. destruct (serve_disk e req (Some t))
    as [->|(raw & t0 & t' & p & reply & _ & [= <-] & Hi & ->)].
  - by exists t.
  - exists t'. split; [done|]. by eapply insert_row_numbered.
Qed.

Lemma run_numbered reqs t :
  numbered t -> exists t', run (Some t) reqs = Some t' /\ numbered t'.
Proof.
  revert t. induction reqs as [|[e req] reqs IH]; intros t Hn; cbn.
  - by exists t.
  - destruct (serve_numbered e req t Hn) as (t' & -> & Hn').
    by apply IH.
Qed.

(** X13: In a store that [init_db] created, the requests that follow
    give the records the ids 1, 2, 3, ... in the order in which they
    are inserted; no id is left out and none is given twice. *)
Theorem ids_count_up_from_one
    (e0 : env) (reqs : list (env * request)) :
  writable e0 ->
  row_id <$> records (run (startup e0 None).2 reqs)
  = Z.of_nat <$> List.seq 1 (length (records (run (startup e0 None).2 reqs))).
Proof.
  intros He. rewrite (startup_writable e0 None He). cbn.
  destruct (run_numbered reqs empty_table) as (t & -> & [Hids _]);
    [by split|].
  done.
Qed.

Lemma ids_count_up_from_one_witness :
  row_id <$> records
    (run (startup (echo_env 1) None).2
       [(echo_env 2, PostGenerate (prompt_body (py "a")));
        (broken_model_env 3, PostGenerate (prompt_body (py "b")));
        (echo_env 4, GetHistory []);
        (echo_env 5, PostGenerate (prompt_body (py "c")))])
  = Z.of_nat <$> List.seq 1 (length (records
      (run (startup (echo_env 1) None).2
         [(echo_env 2, PostGenerate (prompt_body (py "a")));
          (broken_model_env 3, PostGenerate (prompt_body (py "b")));
          (echo_env 4, GetHistory []);
          (echo_env 5, PostGenerate (prompt_body (py "c")))]))).
Proof.
  apply (ids_count_up_from_one (echo_env 1)).
  split; reflexivity.
Defined.

(** X14: Whatever is in the table, the record that a POST /generate
    answered 200 has inserted carries an id within 64 bits that is
    above the id of every record of the table and above the last id
    the table has given; it is one more than that last id or than the
    id of a record, or it is 1 in a table without records. *)
Theorem generate_id_is_fresh
    (e : env) (raw : option json) (t : table) :
  status (serve e (PostGenerate raw) (Some t)).1 = 200 ->
  exists r,
    last (records (serve e (PostGenerate raw) (Some t)).2) = Some r
    /\ (forall r', r' ∈ rows t -> row_id r' < row_id r)
    /\ seq t < row_id r
    /\ row_id r <= int64_max
    /\ (row_id r = seq t + 1
        \/ (exists r', r' ∈ rows t /\ row_id r = row_id r' + 1)
        \/ (rows t = [] /\ row_id r = 1)).
Proof.
  rewrite serve_run_request. cbn. intros Hs.
  pose proof (generate_run_total e raw (Some t)) as H.
  destruct (generate_run_200 _ _ _ _ _ H Hs)
    as (fields & s & reply & t0 & t' & _ & _ & _ & [= <-] & Hi & _ & -> & _).
  apply insert_row_inv in Hi as [-> Hmax]. cbn.
  eexists. split; [apply last_snoc|]. cbn. unfold largest_id in *.
  split; [intros r' Hr'%max_id_ge; lia|]. split; [lia|]. split; [lia|].
  destruct (rows t) as [|r0 rs] eqn:Hrows.
  - cbn. destruct (Z.max_spec (seq t) 0) as [[_ ->]|[_ ->]]; auto.
  - destruct (max_id_elem (r0 :: rs)) as (r' & Hr' & <-); [done|].
    destruct (Z.max_spec (seq t) (row_id r')) as [[_ ->]|[_ ->]]; eauto.
Qed.

Lemma generate_id_is_fresh_witness :
  exists r,
    last (records (serve (echo_env 10) (PostGenerate (prompt_body (py "d")))
                     (Some {| rows := [Row (-5) (py "a") (py "x") (Stamp 5)];
                              seq := -10 |})).2) = Some r
    /\ (forall r', r' ∈ [Row (-5) (py "a") (py "x") (Stamp 5)] ->
                   row_id r' < row_id r)
    /\ -10 < row_id r
    /\ row_id r <= int64_max
    /\ (row_id r = -10 + 1
        \/ (exists r', r' ∈ [Row (-5) (py "a") (py "x") (Stamp 5)]
                       /\ row_id r = row_id r' + 1)
        \/ ([Row (-5) (py "a") (py "x") (Stamp 5)] = [] /\ row_id r = 1)).
Proof.
  apply (generate_id_is_fresh (echo_env 10) (prompt_body (py "d"))
           {| rows := [Row (-5) (py "a") (py "x") (Stamp 5)]; seq := -10 |}).
  vm_compute. reflexivity.
Defined.

(** A table whose only id and whose [sqlite_sequence] are negative:
    the next id is one more than the id of the record. *)
Example next_id_after_negative_ids :
  records (serve (echo_env 10) (PostGenerate (prompt_body (py "d")))
             (Some {| rows := [Row (-5) (py "a") (py "x") (Stamp 5)];
                      seq := -10 |})).2
  = [Row (-5) (py "a") (py "x") (Stamp 5);
     Row (-4) (py "d") (py "ok") (Stamp 10)].
Proof. vm_compute. reflexivity. Qed.

(** ** The store as a log of the replies *)

Lemma generate_run_reply e d raw resp w :
  generate_run e d raw resp w ->
  row_response <$> records (disk w)
  = (row_response <$> records d) ++ option_list (reply_of resp).
Proof.
  intros H.
  destruct H as [ | | | | | |fields s reply t t' _ _ _ _ _ -> _ Hi]; cbn;
    try (by rewrite app_nil_r).
  apply insert_row_inv in Hi as [-> _]. cbn. by rewrite fmap_app.
Qed.

Lemma history_run_reply e d args resp w :
  history_run e d args resp w ->
  disk w = d /\ reply_of resp = None.
Proof.
  intros H. by destruct H.
Qed.

Lemma serve_reply e req d :
  row_response <$> records (serve e req d).2
  = (row_response <$> records d) ++ option_list (reply_of (serve e req d).1).
Proof.
  rewrite serve_run_request. cbn. destruct req as [raw|args|args| | |].
  - eapply generate_run_reply, generate_run_total.
  - destruct (history_run_reply _ _ _ _ _ (history_run_total e args d))
      as [-> ->]. cbn. by rewrite app_nil_r.
  - rewrite head_history_run. cbn.
    destruct (history_run_reply _ _ _ _ _ (history_run_total e args d))
      as [-> _]. by rewrite app_nil_r.
  - cbn. by rewrite app_nil_r.
  - cbn. by rewrite app_nil_r.
  - cbn. by rewrite app_nil_r.
Qed.

(** X15: The store is the log of the replies: after any sequence of
    requests, the responses of the records added to the store are the
    replies that were returned to the callers, one record for each
    reply, in the order of the requests. *)
Theorem store_logs_the_replies
    (d : database) (reqs : list (env * request)) :
  row_response <$> records (run d reqs)
  = (row_response <$> records d) ++ omap reply_of (transcript d reqs).
Proof.
  revert d. induction reqs as [|[e req] reqs IH]; intros d; cbn.
  - by rewrite app_nil_r.
  - rewrite IH, serve_reply, <- app_assoc. f_equal.
    by destruct (reply_of (serve e req d).1).
Qed.

(** ** Without the table *)

(** X16: No request creates the table: while [conversations] does not
    exist, a POST /generate and a GET or HEAD /history are never
    answered 200, and after any sequence of requests of any kind the
    table still does not exist. *)
Theorem requests_never_create_the_table
    (e : env) (req : request) (reqs : list (env * request)) :
  (serve e req None).2 = None
  /\ (forall raw, status (serve e (PostGenerate raw) None).1 <> 200)
  /\ (forall args,
        status (serve e (GetHistory args) None).1 <> 200
        /\ status (serve e (HeadHistory args) None).1 <> 200)
  /\ run None reqs = None.
Proof.
  assert (Hstep : forall e req, (serve e req None).2 = None).
  { clear. intros e req.
    destruct (serve_disk e req None) as [H|H]; [done|].
    by destruct H as (? & ? & ? & ? & ? & _ & [=] & _). }
  assert (Hget : forall args,
    status (run_request e (GetHistory args) None).1 <> 200).
  { intros args Hs. pose proof (history_run_total e args None) as H.
    destruct (history_run_200 _ _ _ _ _ H Hs) as [items Hi].
    by destruct (history_run_items_paging _ _ _ _ _ _ H Hi)
      as (? & ? & ? & _ & [=] & _). }
  split; [apply Hstep|]. split; [|split].
  - intros raw. rewrite serve_run_request. cbn.
    intros Hs. pose proof (generate_run_total e raw None) as H.
    by destruct (generate_run_200 _ _ _ _ _ H Hs)
      as (? & ? & ? & ? & ? & _ & _ & _ & [=] & _).
  - intros args. rewrite !serve_run_request. cbn. split; [apply Hget|].
    rewrite head_history_run. cbn. apply Hget.
  - induction reqs as [|[e' req'] reqs IH]; cbn; [done|].
    by rewrite (Hstep e' req').
Qed.

(** ** When [init_db] fails *)

(** X17: [init_db] returns exactly when the store can be opened and
    the CREATE TABLE can be run; when it raises, the store is as it
    was, and a table that exists is never changed by it, whether it
    returns or raises. *)
Theorem init_db_fails_without_harm (e : env) (d : database) :
  ((startup e d).1 = Return () <-> writable e)
  /\ ((startup e d).1 <> Return () -> (startup e d).2 = d)
  /\ (forall t, d = Some t -> (startup e d).2 = Some t).
Proof.
  unfold startup, writable. unfold_handlers.
  destruct (connect_fails e), (execute_fails e), d as [t|]; cbn;
    repeat split; intros; destruct_and?; simplify_eq; done.
Qed.

(** ** The newest record *)

Lemma reachable_in_order reqs :
  clock_non_decreasing reqs ->
  clock_in_range reqs ->
  exists c t, run (Some empty_table) reqs = Some t /\ in_order c t.
Proof.
  intros Hm Hr. destruct reqs as [|[e0 req0] reqs'].
  - exists 0, empty_table. split; [done|apply empty_table_in_order].
  - apply (run_in_order _ (Z.of_N (now e0)));
      [apply empty_table_in_order| |done..].
    apply StronglySorted_inv in Hm as [_ Hhd]. apply Forall_cons.
    split; [cbn; lia|].
    eapply Forall_impl; [exact Hhd|]. cbn. intros er Her. lia.
Qed.

(** In a table in order, the row inserted last is the first of the
    SELECT's order. *)
Lemma newest_is_first t :
  ids_increase t -> times_non_decreasing (rows t) ->
  head (merge_sort listed_before (rows t)) = last (rows t).
Proof.
  intros [Hids _] Htimes.
  pose proof (merge_sort_Permutation listed_before (rows t)) as Hperm.
  pose proof (StronglySorted_merge_sort listed_before (rows t)) as Hsort.
  destruct (last (rows t)) as [r|] eqn:Hlast.
  - apply last_Some in Hlast as [rs Hrs]. rewrite Hrs in *.
    destruct (merge_sort listed_before (rs ++ [r])) as [|h L] eqn:HL.
    { apply Permutation_nil in Hperm. by destruct rs. }
    cbn. f_equal.
    assert (Hh : h ∈ rs ++ [r]).
    { rewrite <- Hperm. apply elem_of_cons. by left. }
    apply elem_of_app in Hh as [Hh|Hh%list_elem_of_singleton]; [|done].
    exfalso.
    assert (Hid : row_id h < row_id r).
    { apply (StronglySorted_app_1_elem_of
               (fun a b => row_id a < row_id b) rs [r]); [done..|].
      by apply list_elem_of_singleton. }
    assert (Htm : sort_key (row_created_at h) <= sort_key (row_created_at r)).
    { apply (StronglySorted_app_1_elem_of
               (fun a b => sort_key (row_created_at a)
                           <= sort_key (row_created_at b)) rs [r]);
        [done..|].
      by apply list_elem_of_singleton. }
    assert (Hr : r ∈ h :: L).
    { rewrite Hperm. apply elem_of_app. right.
      by apply list_elem_of_singleton. }
    apply elem_of_cons in Hr as [->|Hr]; [lia|].
    apply StronglySorted_inv in Hsort as [_ Hall].
    rewrite Forall_forall in Hall. specialize (Hall r Hr).
    unfold listed_before in Hall. lia.
  - assert (Hnil : rows t = []).
    { destruct (rows t) as [|x l] eqn:E; [done|].
      assert (is_Some (last (x :: l))) as [? ?]; [|congruence].
      by apply last_is_Some. }
    rewrite Hnil in *. by apply Permutation_nil_r in Hperm as ->.
Qed.

Lemma limit_offset_head {A} (limit offset : Z) (L : list A) :
  limit <> 0 -> offset <= 0 ->
  head (limit_offset limit offset L) = head L.
Proof.
  intros Hl Ho. unfold limit_offset.
  replace (Z.to_nat offset) with 0%nat by lia. rewrite drop_0.
  destruct (limit <? 0) eqn:E; [done|]. apply Z.ltb_ge in E.
  destruct (Z.to_nat limit) as [|n] eqn:En; [lia|]. by destruct L.
Qed.

Lemma history_head_in_order e args t limit offset items :
  ids_increase t -> times_non_decreasing (rows t) ->
  parse_paging args = Some (limit, offset) ->
  limit <> 0 -> offset <= 0 ->
  body (serve e (GetHistory args) (Some t)).1 = HistoryBody items ->
  head items = to_entry <$> last (rows t).
Proof.
  intros Hids Htimes Hp Hl Ho
    (? & ? & t' & Hq & [= <-] & ->)%serve_history_items.
  rewrite Hp in Hq. injection Hq as <- <-.
  unfold select_recent.
  rewrite <- (newest_is_first t Hids Htimes).
  set (L := merge_sort listed_before (rows t)).
  transitivity (to_entry <$> head (limit_offset limit offset L)).
  - by destruct (limit_offset limit offset L).
  - by rewrite limit_offset_head.
Qed.

Lemma generate_run_replied e d raw resp w reply :
  generate_run e d raw resp w ->
  body resp = ReplyBody reply ->
  status resp = 200.
Proof. intros H. by destruct H. Qed.

(** X18: When the store's clock has not gone back between the requests
    that filled the store and has stayed within the seconds that SQLite
    renders as dates (to 9999-12-31 23:59:59), a GET /history with a
    limit other than 0 and an offset that is not positive lists first
    the record that was inserted last. *)
Theorem history_begins_with_the_last_insert
    (e : env) (args : list (pystr * pystr)) (reqs : list (env * request))
    (limit offset : Z) (items : list entry) :
  clock_non_decreasing reqs ->
  clock_in_range reqs ->
  parse_paging args = Some (limit, offset) ->
  limit <> 0 -> offset <= 0 ->
  body (serve e (GetHistory args) (run (Some empty_table) reqs)).1
  = HistoryBody items ->
  head items = to_entry <$> last (records (run (Some empty_table) reqs)).
Proof.
  intros Hm Hr Hp Hl Ho.
  destruct (reachable_in_order reqs Hm Hr)
    as (c & t & -> & Hids & Htimes & _).
  cbn. intros Hi.
  by apply (history_head_in_order e args t limit offset).
Qed.

Lemma history_begins_with_the_last_insert_witness :
  head [Entry 3 (py "c") (py "ok") (Stamp 12); Entry 2 (py "b") (py "ok") (Stamp 10)]
  = to_entry <$> last (records (run (Some empty_table)
      [(echo_env 10, PostGenerate (prompt_body (py "a")));
       (echo_env 10, PostGenerate (prompt_body (py "b")));
       (echo_env 12, PostGenerate (prompt_body (py "c")))])).
Proof.
  apply (history_begins_with_the_last_insert (echo_env 20)
           [(py "limit", py "2")]
           [(echo_env 10, PostGenerate (prompt_body (py "a")));
            (echo_env 10, PostGenerate (prompt_body (py "b")));
            (echo_env 12, PostGenerate (prompt_body (py "c")))] 2 0).
  - clock_facts.
  - clock_facts.
  - vm_compute. reflexivity.
  - lia.
  - lia.
  - vm_compute. reflexivity.
Defined.

(** X19: What POST /generate stores, GET /history gives back: when the
    clock has not gone back and has stayed within the seconds that
    SQLite renders as dates (to 9999-12-31 23:59:59), the first record
    of the next GET /history (limit other than 0, offset not positive)
    is the stripped prompt of the request that was answered, with the
    reply that was returned and the time stamp of the clock reading of
    that request. *)
Theorem generate_then_history
    (e e' : env) (fields : gmap pystr json) (P reply : pystr)
    (reqs : list (env * request)) (args : list (pystr * pystr))
    (limit offset : Z) (items : list entry) :
  clock_non_decreasing
    (reqs ++ [(e, PostGenerate (Some (JDict fields)))]) ->
  clock_in_range
    (reqs ++ [(e, PostGenerate (Some (JDict fields)))]) ->
  fields !! py "prompt" = Some (JStr P) ->
  body (serve e (PostGenerate (Some (JDict fields)))
          (run (Some empty_table) reqs)).1 = ReplyBody reply ->
  parse_paging args = Some (limit, offset) ->
  limit <> 0 -> offset <= 0 ->
  body (serve e' (GetHistory args)
          (serve e (PostGenerate (Some (JDict fields)))
             (run (Some empty_table) reqs)).2).1 = HistoryBody items ->
  exists i,
    head items = Some (Entry i (PyStr.strip P) reply (Stamp (now e))).
Proof.
  intros Hm Hrg HP Hb Hp Hl Ho Hi.
  destruct (reachable_in_order _ Hm Hrg)
    as (c & t' & Hrun & Hids & Htimes & _).
  assert (Hnow : current_timestamp (now e) = Stamp (now e)).
  { apply Forall_app in Hrg as [_ [Hnow _]%Forall_cons]. cbn in Hnow.
    unfold current_timestamp.
    by rewrite (proj2 (N.leb_le (now e) stamp_max) Hnow). }
  unfold run in Hrun. rewrite foldl_snoc in Hrun. cbn in Hrun.
  fold (run (Some empty_table) reqs) in Hrun.
  rewrite Hrun in Hi.
  rewrite (history_head_in_order _ _ _ _ _ _ Hids Htimes Hp Hl Ho Hi).
  rewrite serve_run_request in Hb, Hrun. cbn in Hb, Hrun.
  pose proof (generate_run_total e (Some (JDict fields))
                (run (Some empty_table) reqs)) as H.
  pose proof (generate_run_replied _ _ _ _ _ _ H Hb) as Hs.
  destruct (generate_run_200 _ _ _ _ _ H Hs)
    as (f & s & reply' & t & t0 & [= <-] & Hv & _ & _ & Hins & Hr & Hw & _).
  rewrite HP in Hv. injection Hv as <-.
  rewrite Hr in Hb. injection Hb as ->.
  rewrite Hw in Hrun. injection Hrun as <-.
  apply insert_row_inv in Hins as [-> _]. cbn.
  rewrite last_snoc. cbn. rewrite Hnow. by eexists.
Qed.

Lemma generate_then_history_witness :
  exists i,
    head [Entry 2 (py "b") (py "ok") (Stamp 11); Entry 1 (py "a") (py "ok") (Stamp 10)]
    = Some (Entry i (PyStr.strip (py " b ")) (py "ok")
              (Stamp (now (echo_env 11)))).
Proof.
  apply (generate_then_history (echo_env 11) (echo_env 12)
           {[ py "prompt" := JStr (py " b ") ]} (py " b ") (py "ok")
           [(echo_env 10, PostGenerate (prompt_body (py "a")))]
           [] 5 0).
  - clock_facts.
  - clock_facts.
  - vm_compute. reflexivity.
  - vm_compute. reflexivity.
  - vm_compute. reflexivity.
  - lia.
  - lia.
  - vm_compute. reflexivity.
Defined.

(** X20: POST /generate has no memory: the reply depends on the prompt
    and the oracle only, not on what the store holds; the same request
    answered 200 over two stores gets the same response. *)
Theorem generate_has_no_memory
    (e : env) (raw : option json) (d1 d2 : database) :
  status (serve e (PostGenerate raw) d1).1 = 200 ->
  status (serve e (PostGenerate raw) d2).1 = 200 ->
  (serve e (PostGenerate raw) d1).1 = (serve e (PostGenerate raw) d2).1.
Proof.
  rewrite !serve_run_request. cbn. intros H1 H2.
  destruct (generate_run_200 _ _ _ _ _ (generate_run_total e raw d1) H1)
    as (f1 & s1 & r1 & ? & ? & -> & Hv1 & Hc1 & _ & _ & -> & _).
  destruct (generate_run_200 _ _ _ _ _ (generate_run_total e _ d2) H2)
    as (f2 & s2 & r2 & ? & ? & [= <-] & Hv2 & Hc2 & _ & _ & -> & _).
  rewrite Hv1 in Hv2. injection Hv2 as <-. congruence.
Qed.

Lemma generate_has_no_memory_witness :
  (serve (echo_env 10) (PostGenerate (prompt_body (py "hi")))
     (Some empty_table)).1
  = (serve (echo_env 10) (PostGenerate (prompt_body (py "hi")))
       three_rows).1.
Proof.
  apply (generate_has_no_memory (echo_env 10) (prompt_body (py "hi"))
           (Some empty_table) three_rows); vm_compute; reflexivity.
Defined.

(** ** The defaults of the paging *)

Lemma history_paging_ext e args args' d :
  parse_paging args = parse_paging args' ->
  run_request e (GetHistory args) d = run_request e (GetHistory args') d.
Proof. intros H. unfold_handlers; cbn. by rewrite H. Qed.

Lemma limit_is_not_offset : py "limit" <> py "offset".
Proof. intros H. vm_compute in H. discriminate H. Qed.

(** X21: A query without [limit] is served as the query with
    [limit=5], and a query without [offset] as the query with
    [offset=0]. *)
Theorem history_default_paging
    (e : env) (args : list (pystr * pystr)) (d : database) :
  (args_get args (py "limit") = None ->
     run_request e (GetHistory args) d
     = run_request e (GetHistory (args ++ [(py "limit", py "5")])) d)
  /\ (args_get args (py "offset") = None ->
       run_request e (GetHistory args) d
       = run_request e (GetHistory (args ++ [(py "offset", py "0")])) d).
Proof.
  assert (Happ : forall k v key,
    args_get (args ++ [(k, v)]) key
    = match args_get args key with
      | Some x => Some x
      | None => if bool_decide (k = key) then Some v else None
      end).
  { intros k v key. induction args as [|[k' v'] args IH]; cbn; [done|].
    by destruct (bool_decide (k' = key)). }
  split; intros Hn; apply history_paging_ext; unfold parse_paging, int_arg;
    rewrite !Happ, Hn.
  - rewrite (bool_decide_eq_true_2 (py "limit" = py "limit")) by done.
    rewrite (bool_decide_eq_false_2 (py "limit" = py "offset"))
      by apply limit_is_not_offset.
    change (PyStr.int_of_str (py "5")) with (Some 5).
    by destruct (args_get args (py "offset")).
  - rewrite (bool_decide_eq_true_2 (py "offset" = py "offset")) by done.
    rewrite (bool_decide_eq_false_2 (py "offset" = py "limit"))
      by (intros H; symmetry in H; by apply limit_is_not_offset).
    change (PyStr.int_of_str (py "0")) with (Some 0).
    by destruct (args_get args (py "limit")).
Qed.

Lemma history_default_paging_witness :
  run_request (echo_env 10) (GetHistory []) three_rows
  = run_request (echo_env 10) (GetHistory ([] ++ [(py "limit", py "5")]))
      three_rows.
Proof.
  apply (proj1 (history_default_paging (echo_env 10) [] three_rows)).
  reflexivity.
Defined.

(** ** The tokens that are decoded *)

(** X22: Only what the model adds is decoded: when [model.generate]
    returns the input tokens followed by new tokens, the reply is the
    stripped decoding of the new tokens, and the tokens of the prompt
    and of its template are cut off. *)
Theorem complete_decodes_the_new_tokens
    (e : env) (prompt text decoded : pystr) (inputs new : list Z) :
  apply_chat_template e prompt = Some text ->
  tokenize e text = Some inputs ->
  model_generate e inputs = Some (inputs ++ new) ->
  decode e new = Some decoded ->
  complete e prompt = Some (PyStr.strip decoded).
Proof.
  intros Ht Hi Hg Hd. unfold complete. rewrite Ht. cbn. rewrite Hi. cbn.
  rewrite Hg. cbn. rewrite drop_app_length, Hd. done.
Qed.

Lemma complete_decodes_the_new_tokens_witness :
  complete (echo_env 10) (py "hi") = Some (PyStr.strip (py " ok" ++ [0x0A%N])).
Proof.
  apply (complete_decodes_the_new_tokens (echo_env 10) (py "hi")
           (py "<user>hi<assistant>") (py " ok" ++ [0x0A%N])
           (Z.of_N <$> py "<user>hi<assistant>") [0x20; 0x6F; 0x6B; 0x0A]);
    vm_compute; reflexivity.
Defined.
